(** * Weather agent: the derivation layer and the evaluation scorers

    A shallow embedding of [src/mastra/tools/weather-tool.ts] and of the
    score steps of [src/mastra/scorers/weather-scorer.ts].

    - A JavaScript [number] is an IEEE 754 binary64 value: Rocq's primitive
      [float], whose comparisons and arithmetic are the ones JavaScript
      performs ([NaN] compares false with everything, [+] and [*] round to
      nearest even).  Numbers that the program uses only as integers (the
      WMO weather code, the number of forecast days) are [Z].
    - An object literal read as a table is a [gmap] over its own keys; where
      the key is a text the program does not choose (a judge's verdict),
      [JS.get] reads the properties inherited from [Object.prototype] too.
    - An [async] function returns a [Promise]: fulfilled with a value or
      rejected with the message of the error thrown.
    - The HTTP endpoints are a [Provider]: functions answering the three
      requests the program builds.
    - [undefined] is [None]. *)

From Stdlib Require Import ZArith Floats.
From stdpp Require Import gmap strings list fin_maps.
Set Warnings "-inexact-float".

(** ** JavaScript numbers and operators *)

Module JS.

Abbreviation number := float (only parsing).

(** [a < b], [a > b], [a <= b], [a >= b] on numbers. *)
Definition lt (a b : number) : bool := PrimFloat.ltb a b.
Definition gt (a b : number) : bool := PrimFloat.ltb b a.
Definition le (a b : number) : bool := PrimFloat.leb a b.
Definition ge (a b : number) : bool := PrimFloat.leb b a.

(** [Math.min(a, b)] and [Math.max(a, b)]: [NaN] when an argument is
    [NaN]; [-0] is smaller than [+0]. *)
Definition Math_min (a b : number) : number :=
  if is_nan a || is_nan b then nan
  else if PrimFloat.ltb a b then a
  else if PrimFloat.ltb b a then b
  else if get_sign a then a else b.

Definition Math_max (a b : number) : number :=
  if is_nan a || is_nan b then nan
  else if PrimFloat.ltb a b then b
  else if PrimFloat.ltb b a then a
  else if get_sign a then b else a.

(** Truthiness of a number and of a string. *)
Definition truthy_number (x : number) : bool := negb (is_zero x || is_nan x).
Definition truthy_string (s : string) : bool := negb (bool_decide (s = "")).

(** [v || d] where [v] is a possibly undefined number or string. *)
Definition or_number (v : option number) (d : number) : number :=
  match v with
  | Some x => if truthy_number x then x else d
  | None => d
  end.

Definition or_string (v : option string) (d : string) : string :=
  match v with
  | Some s => if truthy_string s then s else d
  | None => d
  end.

(** [v ?? d]. *)
Definition nullish (v : option number) (d : number) : number :=
  match v with
  | Some x => x
  | None => d
  end.

(** [s.includes(sub)] on strings. *)
Fixpoint includes (s sub : string) : bool :=
  String.prefix sub s ||
  match s with
  | EmptyString => false
  | String _ s' => includes s' sub
  end.

(** The string-keyed properties that every object literal inherits from
    [Object.prototype]: eleven functions, and the [__proto__] accessor, which
    reads as the prototype object. *)
Definition Object_prototype : list string := [
  "constructor"; "__defineGetter__"; "__defineSetter__"; "hasOwnProperty";
  "__lookupGetter__"; "__lookupSetter__"; "isPrototypeOf"; "propertyIsEnumerable";
  "toString"; "valueOf"; "__proto__"; "toLocaleString"
].

(** What [o[key]] can read on an object literal whose own properties are
    numbers: a number, or the function or object inherited under [key]. *)
Inductive value :=
  | Num (x : number)
  | Inherited (key : string).

(** [o[key]]: the own property, else the inherited one, else [undefined]
    (an undefined key reads the property "undefined", which no object
    here has). *)
Definition get (o : gmap string number) (key : option string) : option value :=
  match key with
  | Some k =>
      match o !! k with
      | Some x => Some (Num x)
      | None => if bool_decide (k ∈ Object_prototype) then Some (Inherited k) else None
      end
  | None => None
  end.

(** Truthiness of a value: functions and objects are truthy. *)
Definition truthy (v : value) : bool :=
  match v with
  | Num x => truthy_number x
  | Inherited _ => true
  end.

(** [v || d] where [v] was read from an object. *)
Definition or_value (v : option value) (d : number) : value :=
  match v with
  | Some x => if truthy x then x else Num d
  | None => Num d
  end.

(** The number a value stands for in arithmetic: a function or the
    prototype object converts to [NaN]. *)
Definition toNumber (v : value) : number :=
  match v with
  | Num x => x
  | Inherited _ => nan
  end.

End JS.

(** ** Promises *)

Inductive Promise (A : Type) : Type :=
  | Fulfilled (value : A)
  | Rejected (message : string).
Arguments Fulfilled {A} value.
Arguments Rejected {A} message.

#[global] Instance Promise_ret : MRet Promise := λ A x, Fulfilled x.
#[global] Instance Promise_bind : MBind Promise := λ A B f p,
  match p with
  | Fulfilled x => f x
  | Rejected e => Rejected e
  end.

(** ** The provider's responses *)

Module GeocodingResult.
Record t := {
  latitude : JS.number;
  longitude : JS.number;
  name : string;
  country : string;
  admin1 : option string }.
End GeocodingResult.

Module GeocodingResponse.
Record t := { results : option (list GeocodingResult.t) }.
End GeocodingResponse.

Module Current.
Record t := {
  time : string;
  temperature_2m : JS.number;
  apparent_temperature : JS.number;
  relative_humidity_2m : JS.number;
  wind_speed_10m : JS.number;
  wind_gusts_10m : JS.number;
  weather_code : Z;
  precipitation : JS.number;
  uv_index : option JS.number }.
End Current.

Module CurrentWeatherResponse.
Record t := { current : Current.t }.
End CurrentWeatherResponse.

Module Daily.
Record t := {
  time : list string;
  temperature_2m_max : list JS.number;
  temperature_2m_min : list JS.number;
  weather_code : list Z;
  precipitation_probability_max : list JS.number;
  wind_speed_10m_max : list JS.number;
  uv_index_max : list JS.number }.
End Daily.

Module ForecastResponse.
Record t := { daily : Daily.t }.
End ForecastResponse.

(** The endpoints, keyed by what the program interpolates into each URL:
    the place name for the geocoding search, the coordinates for the current
    reading, the coordinates and [forecast_days] for the daily forecast. *)
Record Provider := {
  geocoding : string → Promise GeocodingResponse.t;
  current_weather : JS.number → JS.number → Promise CurrentWeatherResponse.t;
  daily_forecast : JS.number → JS.number → Z → Promise ForecastResponse.t }.

(** ** Condition code translator *)

Definition conditions : gmap Z string := list_to_map [
  (0, "Clear sky");
  (1, "Mainly clear");
  (2, "Partly cloudy");
  (3, "Overcast");
  (45, "Foggy");
  (48, "Depositing rime fog");
  (51, "Light drizzle");
  (53, "Moderate drizzle");
  (55, "Dense drizzle");
  (56, "Light freezing drizzle");
  (57, "Dense freezing drizzle");
  (61, "Slight rain");
  (63, "Moderate rain");
  (65, "Heavy rain");
  (66, "Light freezing rain");
  (67, "Heavy freezing rain");
  (71, "Slight snow fall");
  (73, "Moderate snow fall");
  (75, "Heavy snow fall");
  (77, "Snow grains");
  (80, "Slight rain showers");
  (81, "Moderate rain showers");
  (82, "Violent rain showers");
  (85, "Slight snow showers");
  (86, "Heavy snow showers");
  (95, "Thunderstorm");
  (96, "Thunderstorm with slight hail");
  (99, "Thunderstorm with heavy hail")
]%Z.

Definition getWeatherCondition (code : Z) : string :=
  JS.or_string (conditions !! code) "Unknown".

(** ** Geocoding and the current reading *)

Definition geocodeLocation (P : Provider) (location : string) : Promise GeocodingResult.t :=
  geocodingData ← P.(geocoding) location;
  match geocodingData.(GeocodingResponse.results) with
  | Some (first :: _) => mret first
  | Some [] | None => Rejected ("Location '" +:+ location +:+ "' not found")
  end.

Module Weather.
Record t := {
  temperature : JS.number;
  feelsLike : JS.number;
  humidity : JS.number;
  windSpeed : JS.number;
  windGust : JS.number;
  precipitation : JS.number;
  uvIndex : option JS.number;
  conditions : string;
  location : string;
  country : string }.
End Weather.

Definition getCurrentWeather (P : Provider) (location : string) : Promise Weather.t :=
  geo ← geocodeLocation P location;
  data ← P.(current_weather) geo.(GeocodingResult.latitude) geo.(GeocodingResult.longitude);
  let current := data.(CurrentWeatherResponse.current) in
  mret {|
    Weather.temperature := current.(Current.temperature_2m);
    Weather.feelsLike := current.(Current.apparent_temperature);
    Weather.humidity := current.(Current.relative_humidity_2m);
    Weather.windSpeed := current.(Current.wind_speed_10m);
    Weather.windGust := current.(Current.wind_gusts_10m);
    Weather.precipitation := current.(Current.precipitation);
    Weather.uvIndex := current.(Current.uv_index);
    Weather.conditions := getWeatherCondition current.(Current.weather_code);
    Weather.location := geo.(GeocodingResult.name);
    Weather.country := geo.(GeocodingResult.country) |}.


(** ** Multi-day forecast *)

Module ForecastDay.
(** A field read from a parallel array is [undefined] when the array is
    shorter than [time]. *)
Record t := {
  date : string;
  high : option JS.number;
  low : option JS.number;
  conditions : string;
  precipitationChance : option JS.number;
  windSpeed : option JS.number;
  uvIndex : option JS.number }.
End ForecastDay.

Module Forecast.
Record t := {
  location : string;
  country : string;
  forecast : list ForecastDay.t }.
End Forecast.

(** [days] is [None] when the caller leaves it out: the parameter's default
    is 3.  An index past the end of [weather_code] reads [undefined], a key
    the condition table does not have. *)
Definition getWeatherForecast (P : Provider) (location : string) (days : option Z)
  : Promise Forecast.t :=
  let days := default 3%Z days in
  geo ← geocodeLocation P location;
  data ← P.(daily_forecast) geo.(GeocodingResult.latitude) geo.(GeocodingResult.longitude) days;
  let daily := data.(ForecastResponse.daily) in
  let forecast := imap (λ index date, {|
    ForecastDay.date := date;
    ForecastDay.high := daily.(Daily.temperature_2m_max) !! index;
    ForecastDay.low := daily.(Daily.temperature_2m_min) !! index;
    ForecastDay.conditions :=
      from_option getWeatherCondition "Unknown" (daily.(Daily.weather_code) !! index);
    ForecastDay.precipitationChance := daily.(Daily.precipitation_probability_max) !! index;
    ForecastDay.windSpeed := daily.(Daily.wind_speed_10m_max) !! index;
    ForecastDay.uvIndex := daily.(Daily.uv_index_max) !! index |}) daily.(Daily.time) in
  mret {|
    Forecast.location := geo.(GeocodingResult.name);
    Forecast.country := geo.(GeocodingResult.country);
    Forecast.forecast := forecast |}.

(** ** Activity recommender *)

Module Activity.
Record t := {
  activity : string;
  tempRange : JS.number * JS.number;
  conditions : list string }.
End Activity.

Inductive Suitability := excellent | good | fair | poor.

#[global] Instance Suitability_eq_dec : EqDecision Suitability.
Proof. solve_decision. Defined.

Module Recommendation.
Record t := {
  activity : string;
  suitability : Suitability;
  reason : string;
  indoorAlternative : option string }.
End Recommendation.

Module ActivityRecommendations.
Record t := {
  location : string;
  currentConditions : string;
  temperature : JS.number;
  recommendations : list Recommendation.t }.
End ActivityRecommendations.

Definition allActivities : list Activity.t := [
  {| Activity.activity := "Hiking";
     Activity.tempRange := (10, 30)%float;
     Activity.conditions := ["Clear sky"; "Mainly clear"; "Partly cloudy"] |};
  {| Activity.activity := "Beach";
     Activity.tempRange := (20, 35)%float;
     Activity.conditions := ["Clear sky"; "Mainly clear"] |};
  {| Activity.activity := "Cycling";
     Activity.tempRange := (5, 30)%float;
     Activity.conditions := ["Clear sky"; "Mainly clear"; "Partly cloudy"] |};
  {| Activity.activity := "Picnic";
     Activity.tempRange := (15, 28)%float;
     Activity.conditions := ["Clear sky"; "Mainly clear"; "Partly cloudy"] |};
  {| Activity.activity := "Museum";
     Activity.tempRange := (-10, 40)%float;
     Activity.conditions := ["All"] |};
  {| Activity.activity := "Shopping";
     Activity.tempRange := (-10, 40)%float;
     Activity.conditions := ["All"] |};
  {| Activity.activity := "Restaurant";
     Activity.tempRange := (-10, 40)%float;
     Activity.conditions := ["All"] |}
].

Definition getIndoorAlternative (activity : string) : option string :=
  let alternatives : gmap string string := list_to_map [
    ("Hiking", "Visit a nature museum or indoor botanical garden");
    ("Beach", "Visit an indoor pool or aquatic center");
    ("Cycling", "Try a stationary bike at a gym");
    ("Picnic", "Have an indoor picnic or visit a food hall")
  ] in
  alternatives !! activity.

(** ** Alerts and clothing: result types *)

Inductive Severity := extreme | severe | moderate | minor.

#[global] Instance Severity_eq_dec : EqDecision Severity.
Proof. solve_decision. Defined.

Module Alert.
Record t := {
  severity : Severity;
  event : string;
  description : string;
  instructions : string }.
End Alert.

Module WeatherAlerts.
Record t := {
  location : string;
  country : string;
  alerts : list Alert.t;
  hasAlerts : bool }.
End WeatherAlerts.

Module Clothing.
Record t := {
  layers : list string;
  accessories : list string;
  footwear : string;
  notes : string }.
End Clothing.

Module ClothingRecommendations.
Record t := {
  location : string;
  temperature : JS.number;
  conditions : string;
  recommendations : Clothing.t }.
End ClothingRecommendations.

Definition getWeatherAlerts (P : Provider) (location : string) : Promise WeatherAlerts.t :=
  weather ← getCurrentWeather P location;
  let alerts : list Alert.t := [] in
  let alerts :=
    if JS.gt weather.(Weather.precipitation) 20
    then alerts ++ [{|
      Alert.severity := moderate;
      Alert.event := "Heavy Rain";
      Alert.description := "Heavy rainfall expected in the area";
      Alert.instructions := "Avoid low-lying areas and drive carefully" |}]
    else alerts in
  let alerts :=
    if JS.gt weather.(Weather.windSpeed) 30
    then alerts ++ [{|
      Alert.severity := severe;
      Alert.event := "High Winds";
      Alert.description := "Strong winds expected";
      Alert.instructions := "Secure outdoor objects and avoid wooded areas" |}]
    else alerts in
  mret {|
    WeatherAlerts.location := weather.(Weather.location);
    WeatherAlerts.country := weather.(Weather.country);
    WeatherAlerts.alerts := alerts;
    WeatherAlerts.hasAlerts := bool_decide (0 < length alerts) |}.

(** ** Recommenders

    Two built-ins of the JavaScript runtime stay abstract: the conversion of
    a number to its decimal text in a template string, and
    [String.prototype.toLowerCase]. *)

Section Recommenders.

Context (Number_toString : JS.number → string).
Context (toLowerCase : string → string).

Definition getActivityReason (activity : string) (weather : Weather.t) : string :=
  let reasons : gmap string string := list_to_map [
    ("Hiking", "Perfect temperature of " +:+ Number_toString weather.(Weather.temperature)
               +:+ "°C and " +:+ toLowerCase weather.(Weather.conditions) +:+ " for hiking");
    ("Beach", "Warm " +:+ Number_toString weather.(Weather.temperature)
              +:+ "°C and clear skies ideal for beach activities");
    ("Cycling", "Comfortable conditions for cycling with mild temperatures");
    ("Picnic", "Pleasant weather for outdoor dining and relaxation");
    ("Museum", "Great indoor activity regardless of weather conditions");
    ("Shopping", "Comfortable indoor activity suitable for any weather");
    ("Restaurant", "Enjoy dining in climate-controlled comfort")
  ] in
  JS.or_string (reasons !! activity) "Suitable activity for current conditions".

Definition getActivityRecommendations
  (P : Provider) (location : string) (interests : option (list string))
  : Promise ActivityRecommendations.t :=
  weather ← getCurrentWeather P location;
  let recommendations :=
    (λ act : Activity.t,
       let suitability :=
         if JS.ge weather.(Weather.temperature) (act.(Activity.tempRange).1 + 5) &&
            JS.le weather.(Weather.temperature) (act.(Activity.tempRange).2 - 5)
         then excellent
         else if JS.gt weather.(Weather.precipitation) 5 then fair
         else good in
       {| Recommendation.activity := act.(Activity.activity);
          Recommendation.suitability := suitability;
          Recommendation.reason := getActivityReason act.(Activity.activity) weather;
          Recommendation.indoorAlternative := getIndoorAlternative act.(Activity.activity) |})
    <$> filter (λ act : Activity.t,
         let tempSuitable :=
           JS.ge weather.(Weather.temperature) act.(Activity.tempRange).1 &&
           JS.le weather.(Weather.temperature) act.(Activity.tempRange).2 in
         let conditionsSuitable :=
           bool_decide ("All" ∈ act.(Activity.conditions)) ||
           bool_decide (weather.(Weather.conditions) ∈ act.(Activity.conditions)) in
         tempSuitable && conditionsSuitable) allActivities in
  mret {|
    ActivityRecommendations.location := weather.(Weather.location);
    ActivityRecommendations.currentConditions := weather.(Weather.conditions);
    ActivityRecommendations.temperature := weather.(Weather.temperature);
    ActivityRecommendations.recommendations := take 5 recommendations |}.

Definition getClothingRecommendations
  (P : Provider) (location : string) (activity : option string)
  : Promise ClothingRecommendations.t :=
  weather ← getCurrentWeather P location;
  let notes := "" in
  let '(layers, accessories, footwear) :=
    if JS.lt weather.(Weather.temperature) 0 then
      (["Thermal base layer"; "Insulated mid-layer"; "Waterproof jacket"],
       ["Warm hat"; "Gloves"; "Scarf"],
       "Insulated waterproof boots")
    else if JS.lt weather.(Weather.temperature) 10 then
      (["Long-sleeve shirt"; "Fleece or sweater"; "Light jacket"],
       ["Light hat"; "Gloves if windy"],
       "Closed shoes or boots")
    else if JS.lt weather.(Weather.temperature) 20 then
      (["T-shirt"; "Light jacket or hoodie"],
       [],
       "Sneakers or comfortable shoes")
    else
      (["T-shirt or light top"],
       ["Sunglasses"; "Hat for sun protection"],
       "Sandals or breathable shoes") in
  let '(accessories, notes) :=
    if JS.gt weather.(Weather.precipitation) 5
    then (accessories ++ ["Umbrella"; "Waterproof jacket"], "Expect rain, bring waterproof gear")
    else (accessories, notes) in
  let '(footwear, accessories) :=
    if from_option (λ a, JS.includes (toLowerCase a) "hiking") false activity
    then ("Hiking boots", accessories ++ ["Backpack"; "Water bottle"])
    else (footwear, accessories) in
  mret {|
    ClothingRecommendations.location := weather.(Weather.location);
    ClothingRecommendations.temperature := weather.(Weather.temperature);
    ClothingRecommendations.conditions := weather.(Weather.conditions);
    ClothingRecommendations.recommendations := {|
      Clothing.layers := layers;
      Clothing.accessories := accessories;
      Clothing.footwear := footwear;
      Clothing.notes := JS.or_string (Some notes) "Dress comfortably for the conditions" |} |}.

End Recommenders.

(** ** Scorers: the score step *)

Module AnalyzeStepResult.
(** The judge's verdict as the score step reads it: an untyped object, any
    field of which may be missing. *)
Record t := {
  appropriateness : option string;
  completeness : option string;
  confidence : option JS.number }.

(** [{}] *)
Definition empty : t :=
  {| appropriateness := None; completeness := None; confidence := None |}.
End AnalyzeStepResult.

Module Results.
Record t := { analyzeStepResult : option AnalyzeStepResult.t }.
End Results.

Module toolCallAppropriatenessScorer.
Definition scoreMap : gmap string JS.number := list_to_map [
  ("excellent", 1.0); ("good", 0.8); ("fair", 0.5); ("poor", 0.2)
]%float.

Definition generateScore (results : option Results.t) : JS.number :=
  let r := default AnalyzeStepResult.empty (results ≫= Results.analyzeStepResult) in
  let baseScore :=
    JS.or_value (JS.get scoreMap r.(AnalyzeStepResult.appropriateness)) 0.5 in
  JS.Math_max 0 (JS.Math_min 1
    (JS.toNumber baseScore * JS.nullish r.(AnalyzeStepResult.confidence) 1)).
End toolCallAppropriatenessScorer.

Module completenessScorer.
Definition scoreMap : gmap string JS.number := list_to_map [
  ("complete", 1.0); ("mostly_complete", 0.8); ("partial", 0.5); ("incomplete", 0.2)
]%float.

Definition generateScore (results : option Results.t) : JS.value :=
  let r := default AnalyzeStepResult.empty (results ≫= Results.analyzeStepResult) in
  JS.or_value (JS.get scoreMap r.(AnalyzeStepResult.completeness)) 0.5.
End completenessScorer.

(** * Reference data for the statements *)

(** ** Stub providers used by the worked examples *)

Definition paris : GeocodingResult.t := {|
  GeocodingResult.latitude := 48.85;
  GeocodingResult.longitude := 2.35;
  GeocodingResult.name := "Paris";
  GeocodingResult.country := "France";
  GeocodingResult.admin1 := None |}.

Definition reading (code : Z) (temperature precipitation wind : JS.number) : Current.t := {|
  Current.time := "2026-11-02T12:00";
  Current.temperature_2m := temperature;
  Current.apparent_temperature := temperature;
  Current.relative_humidity_2m := 50;
  Current.wind_speed_10m := wind;
  Current.wind_gusts_10m := wind;
  Current.weather_code := code;
  Current.precipitation := precipitation;
  Current.uv_index := None |}.

Definition no_days : Daily.t := {|
  Daily.time := [];
  Daily.temperature_2m_max := [];
  Daily.temperature_2m_min := [];
  Daily.weather_code := [];
  Daily.precipitation_probability_max := [];
  Daily.wind_speed_10m_max := [];
  Daily.uv_index_max := [] |}.

Definition stub (c : Current.t) (d : Daily.t) : Provider := {|
  geocoding := λ _, Fulfilled {| GeocodingResponse.results := Some [paris] |};
  current_weather := λ _ _, Fulfilled {| CurrentWeatherResponse.current := c |};
  daily_forecast := λ _ _ _, Fulfilled {| ForecastResponse.daily := d |} |}.

(** The reading [getCurrentWeather] builds from [stub (reading ...)]. *)
Definition observed (code : Z) (temperature precipitation wind : JS.number) : Weather.t := {|
  Weather.temperature := temperature;
  Weather.feelsLike := temperature;
  Weather.humidity := 50;
  Weather.windSpeed := wind;
  Weather.windGust := wind;
  Weather.precipitation := precipitation;
  Weather.uvIndex := None;
  Weather.conditions := getWeatherCondition code;
  Weather.location := "Paris";
  Weather.country := "France" |}.

(** The codes of the table, in the order the source lists them. *)
Definition knownCodes : list Z :=
  [0; 1; 2; 3; 45; 48; 51; 53; 55; 56; 57; 61; 63; 65; 66; 67;
   71; 73; 75; 77; 80; 81; 82; 85; 86; 95; 96; 99]%Z.


(** ** The clothing ladder

    The four rungs of the ladder, coldest first, named after their guards,
    and the base outfit (layers, accessories, footwear) each rung assigns. *)
Inductive Tier := below_0 | below_10 | below_20 | warm.

Definition base (tier : Tier) : list string * list string * string :=
  match tier with
  | below_0 =>
      (["Thermal base layer"; "Insulated mid-layer"; "Waterproof jacket"],
       ["Warm hat"; "Gloves"; "Scarf"],
       "Insulated waterproof boots")
  | below_10 =>
      (["Long-sleeve shirt"; "Fleece or sweater"; "Light jacket"],
       ["Light hat"; "Gloves if windy"],
       "Closed shoes or boots")
  | below_20 =>
      (["T-shirt"; "Light jacket or hoodie"], [], "Sneakers or comfortable shoes")
  | warm =>
      (["T-shirt or light top"],
       ["Sunglasses"; "Hat for sun protection"],
       "Sandals or breathable shoes")
  end.

(** [wears c tier]: the recommendation [c] is built on the base outfit of
    [tier]: it has the rung's layers, the rung's accessories come first
    (rain and hiking gear are appended after them), and the footwear is the
    rung's unless hiking replaced it. *)
Definition wears (c : Clothing.t) (tier : Tier) : Prop :=
  c.(Clothing.layers) = (base tier).1.1 ∧
  (base tier).1.2 `prefix_of` c.(Clothing.accessories) ∧
  (c.(Clothing.footwear) = (base tier).2 ∨ c.(Clothing.footwear) = "Hiking boots").

(** ** A provider that answers two days, latest first, whatever is asked *)

Definition two_days : Daily.t := {|
  Daily.time := ["2026-11-03"; "2026-11-02"];
  Daily.temperature_2m_max := [14.5; 12]%float;
  Daily.temperature_2m_min := [7; 6.5]%float;
  Daily.weather_code := [3; 61]%Z;
  Daily.precipitation_probability_max := [20; 80]%float;
  Daily.wind_speed_10m_max := [15; 22]%float;
  Daily.uv_index_max := [2; 1]%float |}.

(** ** Scorers: the verdict tables as the specification words them

    [judged r] is the input of a score step whose analyze step produced [r].
    The fixed value of each verdict of the enumeration, and the base score
    0.5 for anything else (a verdict outside the enumeration, or none).
    [plain verdict]: the verdict, if any, is not the name of a property
    that every object inherits. *)

Definition judged (r : AnalyzeStepResult.t) : option Results.t :=
  Some {| Results.analyzeStepResult := Some r |}.




(** ** Scorers: the other score steps and the preprocess step *)

Module TranslationAnalysis.
(** The translation judge's verdict as the score step reads it;
    [toolsUsedEnglish] is tested for truthiness. *)
Record t := {
  detectedLanguage : option string;
  translationConsistency : option string;
  toolsUsedEnglish : option bool;
  confidence : option JS.number }.

(** [{}] *)
Definition empty : t := {|
  detectedLanguage := None;
  translationConsistency := None;
  toolsUsedEnglish := None;
  confidence := None |}.
End TranslationAnalysis.

Module TranslationResults.
Record t := { analyzeStepResult : option TranslationAnalysis.t }.
End TranslationResults.

Module translationScorer.
Definition generateScore (results : option TranslationResults.t) : JS.number :=
  let r := default TranslationAnalysis.empty
             (results ≫= TranslationResults.analyzeStepResult) in
  if bool_decide (r.(TranslationAnalysis.detectedLanguage) = Some "english") then 1.0%float
  else
    let toolsUsedEnglish := default false r.(TranslationAnalysis.toolsUsedEnglish) in
    let baseScore : JS.number :=
      (if bool_decide (r.(TranslationAnalysis.translationConsistency) = Some "consistent")
          && toolsUsedEnglish then 1.0
       else if bool_decide (r.(TranslationAnalysis.translationConsistency)
                              = Some "mostly_consistent")
          && toolsUsedEnglish then 0.8
       else if bool_decide (r.(TranslationAnalysis.translationConsistency) = Some "inconsistent")
          || negb toolsUsedEnglish then 0.3
       else 0.5)%float in
    JS.Math_max 0 (JS.Math_min 1
      (baseScore * JS.nullish r.(TranslationAnalysis.confidence) 1)).
End translationScorer.

Module RelevanceAnalysis.
(** The relevance judge's verdict as the score step reads it. *)
Record t := { relevance : option string }.

(** [{}] *)
Definition empty : t := {| relevance := None |}.
End RelevanceAnalysis.

Module RelevanceResults.
Record t := { analyzeStepResult : option RelevanceAnalysis.t }.
End RelevanceResults.

Module activityRelevanceScorer.
(** The own properties of the object literal.  The analysis schema admits
    the four keys only, so no inherited property is ever looked up. *)
Definition scoreMap : gmap string JS.number := list_to_map [
  ("highly_relevant", 1.0); ("relevant", 0.8); ("somewhat_relevant", 0.5); ("irrelevant", 0.2)
]%float.

Definition generateScore (results : option RelevanceResults.t) : JS.number :=
  let r := default RelevanceAnalysis.empty
             (results ≫= RelevanceResults.analyzeStepResult) in
  JS.or_number (r.(RelevanceAnalysis.relevance) ≫= (scoreMap !!.)) 0.5.
End activityRelevanceScorer.

(** The recorded run a preprocess step reads: the input messages and the
    output messages, each with its text and its tool calls. *)
Module ToolInput.
Record t := { location : option string; city : option string }.
End ToolInput.

Module ToolCall.
Record t := { toolName : option string; input : option ToolInput.t }.
End ToolCall.

Module Message.
Record t := { content : option string; toolCalls : option (list ToolCall.t) }.
End Message.

Module RunInput.
Record t := { inputMessages : option (list Message.t) }.
End RunInput.

Module Run.
Record t := {
  input : option RunInput.t;
  output : option (list Message.t) }.
End Run.

Module ToolLocation.
Record t := { tool : option string; location : string }.
End ToolLocation.

Module TranslationPreprocess.
Record t := {
  userText : string;
  assistantText : string;
  toolLocations : list ToolLocation.t }.
End TranslationPreprocess.

Definition translationScorer_preprocess (run : Run.t) : TranslationPreprocess.t :=
  let first (messages : list Message.t) : option Message.t := messages !! 0 in
  let userText :=
    JS.or_string
      (((run.(Run.input) ≫= RunInput.inputMessages) ≫= first) ≫= Message.content) "" in
  let assistantText :=
    JS.or_string ((run.(Run.output) ≫= first) ≫= Message.content) "" in
  let toolCalls := default [] ((run.(Run.output) ≫= first) ≫= Message.toolCalls) in
  let toolLocations :=
    (λ tc : ToolCall.t, {|
       ToolLocation.tool := tc.(ToolCall.toolName);
       ToolLocation.location :=
         JS.or_string (tc.(ToolCall.input) ≫= ToolInput.location)
           (JS.or_string (tc.(ToolCall.input) ≫= ToolInput.city) "unknown") |})
    <$> toolCalls in
  {| TranslationPreprocess.userText := userText;
     TranslationPreprocess.assistantText := assistantText;
     TranslationPreprocess.toolLocations := toolLocations |}.

(** ** Providers that fail *)

(** The geocoder finds nothing: it answers without a [results] field. *)
Definition nowhere : Provider := {|
  geocoding := λ _, Fulfilled {| GeocodingResponse.results := None |};
  current_weather := λ _ _, Fulfilled {| CurrentWeatherResponse.current := reading 0 22 0 3 |};
  daily_forecast := λ _ _ _, Fulfilled {| ForecastResponse.daily := two_days |} |}.

(** Every request fails. *)
Definition offline : Provider := {|
  geocoding := λ _, Rejected "fetch failed";
  current_weather := λ _ _, Rejected "fetch failed";
  daily_forecast := λ _ _ _, Rejected "fetch failed" |}.

(** The geocoder answers, the weather endpoint fails. *)
Definition no_weather : Provider := {|
  geocoding := λ _, Fulfilled {| GeocodingResponse.results := Some [paris] |};
  current_weather := λ _ _, Rejected "fetch failed";
  daily_forecast := λ _ _ _, Rejected "fetch failed" |}.

(** ** The recommender's filter test, named

    The test of the filter in [getActivityRecommendations], as a function of
    the reading and the catalog entry. *)
Definition suitableFor (weather : Weather.t) (act : Activity.t) : bool :=
  let tempSuitable :=
    JS.ge weather.(Weather.temperature) act.(Activity.tempRange).1 &&
    JS.le weather.(Weather.temperature) act.(Activity.tempRange).2 in
  let conditionsSuitable :=
    bool_decide ("All" ∈ act.(Activity.conditions)) ||
    bool_decide (weather.(Weather.conditions) ∈ act.(Activity.conditions)) in
  tempSuitable && conditionsSuitable.

(** ** The clothing ladder as a function of the temperature *)
Definition rung (temperature : JS.number) : Tier :=
  if JS.lt temperature 0 then below_0
  else if JS.lt temperature 10 then below_10
  else if JS.lt temperature 20 then below_20
  else warm.

(** * Properties *)

(** ** Awaiting a promise *)

Lemma bind_fulfilled {A B} (p : Promise A) (k : A → Promise B) (x : A) :
  p = Fulfilled x → p ≫= k = k x.
Proof. by intros ->. Qed.

Lemma stub_observed code t p w d :
  getCurrentWeather (stub (reading code t p w) d) "Paris" = Fulfilled (observed code t p w).
Proof. reflexivity. Qed.

(** ** Condition code translator *)

(** C5. The condition code translator is total on the integers: each of the
    28 codes of the table is sent to its fixed label, and every other integer
    to the sentinel "Unknown". *)
Theorem getWeatherCondition_table :
  getWeatherCondition <$> knownCodes =
    ["Clear sky"; "Mainly clear"; "Partly cloudy"; "Overcast"; "Foggy";
     "Depositing rime fog"; "Light drizzle"; "Moderate drizzle"; "Dense drizzle";
     "Light freezing drizzle"; "Dense freezing drizzle"; "Slight rain";
     "Moderate rain"; "Heavy rain"; "Light freezing rain"; "Heavy freezing rain";
     "Slight snow fall"; "Moderate snow fall"; "Heavy snow fall"; "Snow grains";
     "Slight rain showers"; "Moderate rain showers"; "Violent rain showers";
     "Slight snow showers"; "Heavy snow showers"; "Thunderstorm";
     "Thunderstorm with slight hail"; "Thunderstorm with heavy hail"]
  ∧ ∀ code : Z, code ∉ knownCodes → getWeatherCondition code = "Unknown".
Proof.
  split; [reflexivity|].
  intros code Hcode. unfold getWeatherCondition, conditions.
  rewrite (not_elem_of_list_to_map_1 _ code); done.
Qed.

Lemma getWeatherCondition_table_witness :
  (4 ∉ knownCodes)%Z ∧ getWeatherCondition 4 = "Unknown" ∧
  (-1 ∉ knownCodes)%Z ∧ getWeatherCondition (-1) = "Unknown".
Proof.
  assert (H4 : (4 ∉ knownCodes)%Z) by (apply (bool_decide_unpack _); by vm_compute).
  assert (Hm : (-1 ∉ knownCodes)%Z) by (apply (bool_decide_unpack _); by vm_compute).
  exact (conj H4 (conj (proj2 getWeatherCondition_table 4%Z H4)
           (conj Hm (proj2 getWeatherCondition_table (-1)%Z Hm)))).
Defined.

(** ** Alert synthesizer *)

(** C3. Whatever the current reading, the alerts are: a "moderate" Heavy Rain
    alert exactly when precipitation > 20, then a "severe" High Winds alert
    exactly when wind speed > 30, and nothing else; with both, Heavy Rain
    comes first.  Precipitation of exactly 20 raises no rain alert. *)
Theorem getWeatherAlerts_thresholds (P : Provider) (location : string) (weather : Weather.t) :
  getCurrentWeather P location = Fulfilled weather →
  ∃ res, getWeatherAlerts P location = Fulfilled res ∧
    let raised := (λ a, (a.(Alert.severity), a.(Alert.event))) <$> res.(WeatherAlerts.alerts) in
    raised =
      (if JS.gt weather.(Weather.precipitation) 20 then [(moderate, "Heavy Rain")] else []) ++
      (if JS.gt weather.(Weather.windSpeed) 30 then [(severe, "High Winds")] else [])
    ∧ ((moderate, "Heavy Rain") ∈ raised ↔ PrimFloat.ltb 20 weather.(Weather.precipitation) = true)
    ∧ ((severe, "High Winds") ∈ raised ↔ PrimFloat.ltb 30 weather.(Weather.windSpeed) = true)
    ∧ (∀ a, a ∈ raised → a = (moderate, "Heavy Rain") ∨ a = (severe, "High Winds"))
    ∧ (weather.(Weather.precipitation) = 20%float → (moderate, "Heavy Rain") ∉ raised).
Proof.
  intros Hw. unfold getWeatherAlerts. rewrite (bind_fulfilled _ _ _ Hw).
  eexists; split; [reflexivity|]. cbn. unfold JS.gt.
  assert (Hstrict : PrimFloat.ltb 20 20 = false) by reflexivity.
  destruct (PrimFloat.ltb 20 weather.(Weather.precipitation)) eqn:Hrain,
           (PrimFloat.ltb 30 weather.(Weather.windSpeed)) eqn:Hwind; cbn;
    (split; [reflexivity|]);
    repeat split; intros;
    try match goal with
    | H : Weather.precipitation _ = _ |- _ => rewrite H in Hrain
    end;
    set_unfold; intuition congruence.
Qed.

Lemma getWeatherAlerts_thresholds_witness :
  ∃ res, getWeatherAlerts (stub (reading 61 12 20.01 31) no_days) "Paris" = Fulfilled res ∧
    (λ a, (a.(Alert.severity), a.(Alert.event))) <$> res.(WeatherAlerts.alerts) =
      [(moderate, "Heavy Rain"); (severe, "High Winds")].
Proof.
  destruct (getWeatherAlerts_thresholds (stub (reading 61 12 20.01 31) no_days) "Paris"
              (observed 61 12 20.01 31) eq_refl) as (res & Hres & Hraised & _).
  exists res. split; [exact Hres | exact Hraised].
Defined.

(** C10. Whatever the current reading, the alert synthesizer returns a
    result whose [hasAlerts] is true if and only if its list of alerts is not
    empty. *)
Theorem getWeatherAlerts_hasAlerts (P : Provider) (location : string) (weather : Weather.t) :
  getCurrentWeather P location = Fulfilled weather →
  ∃ res, getWeatherAlerts P location = Fulfilled res ∧
    (res.(WeatherAlerts.hasAlerts) = true ↔ res.(WeatherAlerts.alerts) ≠ []).
Proof.
  intros Hw. unfold getWeatherAlerts. rewrite (bind_fulfilled _ _ _ Hw).
  eexists; split; [reflexivity|]. cbn. unfold JS.gt.
  rewrite bool_decide_eq_true.
  destruct (PrimFloat.ltb 20 weather.(Weather.precipitation)),
           (PrimFloat.ltb 30 weather.(Weather.windSpeed));
    cbn; split; intros H; (congruence || lia).
Qed.

(** One alert (rain) and no alert at all. *)
Lemma getWeatherAlerts_hasAlerts_witness :
  (∃ res, getWeatherAlerts (stub (reading 61 12 20.01 3) no_days) "Paris" = Fulfilled res ∧
     (res.(WeatherAlerts.hasAlerts) = true ↔ res.(WeatherAlerts.alerts) ≠ [])) ∧
  (∃ res, getWeatherAlerts (stub (reading 0 12 20 30) no_days) "Paris" = Fulfilled res ∧
     (res.(WeatherAlerts.hasAlerts) = true ↔ res.(WeatherAlerts.alerts) ≠ [])).
Proof.
  split.
  - exact (getWeatherAlerts_hasAlerts (stub (reading 61 12 20.01 3) no_days) "Paris"
             (observed 61 12 20.01 3) eq_refl).
  - exact (getWeatherAlerts_hasAlerts (stub (reading 0 12 20 30) no_days) "Paris"
             (observed 0 12 20 30) eq_refl).
Defined.

(** ** Activity recommender *)


Lemma elem_of_take_elem {A} (x : A) (n : nat) (l : list A) : x ∈ take n l → x ∈ l.
Proof. intros (i & Hi & _)%elem_of_take. by eapply list_elem_of_lookup_2. Qed.

Lemma elem_of_take_fmap_filter {A B} (f : A → B) (P : A → Prop) `{!∀ x, Decision (P x)}
  (l : list A) (i : nat) (x : A) (n : nat) :
  l !! i = Some x → P x → length (filter P (take i l)) < n →
  f x ∈ take n (f <$> filter P l).
Proof.
  intros Hi HP Hlen. rewrite <- (take_drop_middle l i x Hi).
  rewrite filter_app, filter_cons_True by done.
  rewrite fmap_app, fmap_cons. apply elem_of_take.
  exists (length (f <$> filter P (take i l))). split.
  - apply list_lookup_middle. reflexivity.
  - by rewrite length_fmap.
Qed.

Lemma length_filter_cons_False {A} (P : A → Prop) `{!∀ x, Decision (P x)} (x : A) (l : list A) :
  ¬ P x → length (filter P (x :: l)) ≤ length l.
Proof. intros HP. rewrite filter_cons_False by done. apply length_filter. Qed.

(** A catalog activity whose conditions are met and one of whose range
    bounds is exactly the temperature passes the filter and is not cut by the
    limit of five. *)
Lemma boundary_recommended
  (Number_toString : JS.number → string) (toLowerCase : string → string)
  (P : Provider) (location : string) (interests : option (list string))
  (weather : Weather.t) (act : Activity.t) :
  getCurrentWeather P location = Fulfilled weather →
  act ∈ allActivities →
  weather.(Weather.temperature) = act.(Activity.tempRange).1 ∨
  weather.(Weather.temperature) = act.(Activity.tempRange).2 →
  "All" ∈ act.(Activity.conditions) ∨
  weather.(Weather.conditions) ∈ act.(Activity.conditions) →
  ∃ res,
    getActivityRecommendations Number_toString toLowerCase P location interests
      = Fulfilled res ∧
    act.(Activity.activity) ∈
      Recommendation.activity <$> res.(ActivityRecommendations.recommendations).
Proof.
  intros Hw Hact Hbound Hcond.
  unfold getActivityRecommendations. rewrite (bind_fulfilled _ _ _ Hw).
  eexists; split; [reflexivity|].
  cbn [ActivityRecommendations.recommendations].
  rewrite fmap_take, <- list_fmap_compose.
  apply list_elem_of_lookup in Hact as [i Hi].
  assert (Hlt : i < 7) by (apply lookup_lt_Some in Hi; exact Hi).
  match goal with |- _ ∈ take 5 (?f <$> filter ?Q _) =>
    assert (Hok : Q act);
    [ cbv beta zeta; unfold JS.ge, JS.le;
      apply andb_prop_intro; split;
      [ | apply orb_prop_intro; destruct Hcond; [left|right]; by apply bool_decide_pack ]
    | change (f act ∈ take 5 (f <$> filter Q allActivities)) ]
  end.
  { do 7 (destruct i as [|i]; [injection Hi as <-; destruct Hbound as [-> | ->]; exact I|]).
    lia. }
  assert (Hout : ∀ a : Activity.t,
            PrimFloat.leb a.(Activity.tempRange).1 weather.(Weather.temperature) &&
            PrimFloat.leb weather.(Weather.temperature) a.(Activity.tempRange).2 = false →
            ¬ (λ act0 : Activity.t,
                 JS.ge (Weather.temperature weather) (Activity.tempRange act0).1 &&
                 JS.le (Weather.temperature weather) (Activity.tempRange act0).2 &&
                 (bool_decide ("All" ∈ Activity.conditions act0)
                  || bool_decide (Weather.conditions weather ∈ Activity.conditions act0))) a).
  { intros a Ha HQ. cbv beta in HQ. unfold JS.ge, JS.le in HQ.
    apply andb_prop_elim in HQ as [HQ _]. by rewrite Ha in HQ. }
  apply (elem_of_take_fmap_filter _ _ _ i act 5 Hi Hok).
  destruct (decide (i < 5)) as [Hi5|Hi5].
  { eapply Nat.le_lt_trans; [apply length_filter|]. rewrite length_take. lia. }
  do 5 (destruct i as [|i]; [lia|]).
  destruct i as [|i]; [|destruct i as [|i]; [|lia]];
    injection Hi as <-; cbn [Activity.tempRange fst snd] in Hbound.
  - eapply Nat.le_lt_trans; [apply length_filter_cons_False | cbn; lia].
    apply Hout. by destruct Hbound as [-> | ->].
  - unfold allActivities. cbn [take firstn].
    rewrite filter_cons_False by (apply Hout; by destruct Hbound as [-> | ->]).
    eapply Nat.le_lt_trans; [apply length_filter_cons_False | cbn; lia].
    apply Hout. by destruct Hbound as [-> | ->].
Qed.

(** C1. Whatever the current reading, the recommender returns at most five
    recommendations; each is a catalog activity whose inclusive range
    [min, max] contains the temperature and which either accepts "All"
    conditions or lists the current condition label; the recommendations
    keep the catalog's order.  The range is inclusive: a catalog activity
    whose conditions are met is recommended when the temperature is exactly
    one of its bounds. *)
Theorem getActivityRecommendations_sound
  (Number_toString : JS.number → string) (toLowerCase : string → string)
  (P : Provider) (location : string) (interests : option (list string))
  (weather : Weather.t) :
  getCurrentWeather P location = Fulfilled weather →
  ∃ res,
    getActivityRecommendations Number_toString toLowerCase P location interests
      = Fulfilled res ∧
    let recs := res.(ActivityRecommendations.recommendations) in
    length recs ≤ 5
    ∧ (∀ r, r ∈ recs → ∃ act, act ∈ allActivities
         ∧ act.(Activity.activity) = r.(Recommendation.activity)
         ∧ PrimFloat.leb act.(Activity.tempRange).1 weather.(Weather.temperature) = true
         ∧ PrimFloat.leb weather.(Weather.temperature) act.(Activity.tempRange).2 = true
         ∧ ("All" ∈ act.(Activity.conditions)
            ∨ weather.(Weather.conditions) ∈ act.(Activity.conditions)))
    ∧ (Recommendation.activity <$> recs) `sublist_of` (Activity.activity <$> allActivities)
    ∧ (∀ act, act ∈ allActivities →
         weather.(Weather.temperature) = act.(Activity.tempRange).1 ∨
         weather.(Weather.temperature) = act.(Activity.tempRange).2 →
         "All" ∈ act.(Activity.conditions) ∨
         weather.(Weather.conditions) ∈ act.(Activity.conditions) →
         act.(Activity.activity) ∈ Recommendation.activity <$> recs).
Proof.
  intros Hw.
  destruct (getActivityRecommendations Number_toString toLowerCase P location interests)
    as [res|e] eqn:Hres;
    [|unfold getActivityRecommendations in Hres;
      by rewrite (bind_fulfilled _ _ _ Hw) in Hres].
  exists res. split; [reflexivity|]. cbv zeta.
  assert (Hbound := λ act, boundary_recommended
            Number_toString toLowerCase P location interests weather act Hw).
  rewrite Hres in Hbound.
  unfold getActivityRecommendations in Hres.
  rewrite (bind_fulfilled _ _ _ Hw) in Hres. injection Hres as <-.
  cbn [ActivityRecommendations.recommendations] in *.
  split; [|split; [|split]].
  - rewrite length_take. lia.
  - intros r Hr%elem_of_take_elem.
    apply list_elem_of_fmap in Hr as (act & -> & Hact).
    apply list_elem_of_filter in Hact as [Hok Hact].
    exists act. split; [exact Hact|]. split; [reflexivity|].
    cbv zeta in Hok. unfold JS.ge, JS.le in Hok.
    apply andb_prop_elim in Hok as [Htemp Hcond].
    apply andb_prop_elim in Htemp as [Hmin Hmax].
    apply orb_prop_elim in Hcond.
    repeat split; try by apply Is_true_true.
    destruct Hcond as [H|H]; apply bool_decide_unpack in H; auto.
  - etrans; [apply fmap_sublist, sublist_take|].
    rewrite <- list_fmap_compose.
    apply (fmap_sublist Activity.activity), sublist_filter.
  - intros act Hact Hb Hc.
    destruct (Hbound act Hact Hb Hc) as (res' & [= <-] & Hin). exact Hin.
Qed.

(** At 10 degrees under a clear sky, Hiking (range [10, 30]) is recommended. *)
Lemma getActivityRecommendations_sound_witness :
  ∃ res,
    getActivityRecommendations (λ _, "10") id (stub (reading 0 10 0 3) no_days) "Paris" None
      = Fulfilled res ∧
    length res.(ActivityRecommendations.recommendations) ≤ 5 ∧
    "Hiking" ∈ Recommendation.activity <$> res.(ActivityRecommendations.recommendations).
Proof.
  destruct (getActivityRecommendations_sound (λ _, "10") id
              (stub (reading 0 10 0 3) no_days) "Paris" None
              (observed 0 10 0 3) eq_refl) as (res & Hres & Hlen & _ & _ & Hbound).
  exists res. split; [exact Hres|]. split; [exact Hlen|].
  apply (Hbound {| Activity.activity := "Hiking";
                   Activity.tempRange := (10, 30)%float;
                   Activity.conditions := ["Clear sky"; "Mainly clear"; "Partly cloudy"] |}).
  - apply list_elem_of_here.
  - left. reflexivity.
  - right. apply list_elem_of_here.
Defined.



(** C9. The [interests] argument has no influence: for one provider and one
    place, any two values of it (absent included) give the same outcome,
    field for field. *)
Theorem getActivityRecommendations_ignores_interests
  (Number_toString : JS.number → string) (toLowerCase : string → string)
  (P : Provider) (location : string) (interests1 interests2 : option (list string)) :
  getActivityRecommendations Number_toString toLowerCase P location interests1 =
  getActivityRecommendations Number_toString toLowerCase P location interests2.
Proof. reflexivity. Qed.

(** ** The Paris scenario *)

(** C8, as the specification states it, fails: at 22 degrees under a clear
    sky Beach (range [20, 35]) is not "excellent", Museum is not "good", and
    Shopping and Restaurant are cut by the limit of five. *)
Lemma paris_scenario_counterexample :
  ∃ res,
    getActivityRecommendations (λ _, "22") id (stub (reading 0 22 0 3) no_days) "Paris" None
      = Fulfilled res ∧
    let verdicts :=
      (λ r, (r.(Recommendation.activity), r.(Recommendation.suitability)))
        <$> res.(ActivityRecommendations.recommendations) in
    (("Beach", excellent) ∉ verdicts) ∧ (("Museum", good) ∉ verdicts) ∧
    ("Shopping" ∉ verdicts.*1) ∧ ("Restaurant" ∉ verdicts.*1).
Proof.
  eexists. split; [reflexivity|].
  repeat split; apply (bool_decide_unpack _); by vm_compute.
Qed.

(** C8, amended. With a provider answering weather code 0 and temperature
    22, the current conditions are "Clear sky" and the recommender returns,
    in this order: Hiking "excellent"; Beach "good" ("fair" when
    precipitation > 5); Cycling, Picnic and Museum "excellent".  Shopping
    and Restaurant are not returned. *)
Theorem paris_scenario
  (Number_toString : JS.number → string) (toLowerCase : string → string)
  (P : Provider) (location : string) (interests : option (list string))
  (geo : GeocodingResult.t) (data : CurrentWeatherResponse.t) :
  geocodeLocation P location = Fulfilled geo →
  P.(current_weather) geo.(GeocodingResult.latitude) geo.(GeocodingResult.longitude)
    = Fulfilled data →
  data.(CurrentWeatherResponse.current).(Current.weather_code) = 0%Z →
  data.(CurrentWeatherResponse.current).(Current.temperature_2m) = 22%float →
  ∃ weather res,
    getCurrentWeather P location = Fulfilled weather ∧
    weather.(Weather.conditions) = "Clear sky" ∧
    getActivityRecommendations Number_toString toLowerCase P location interests
      = Fulfilled res ∧
    (λ r, (r.(Recommendation.activity), r.(Recommendation.suitability)))
      <$> res.(ActivityRecommendations.recommendations) =
    [("Hiking", excellent);
     ("Beach", if JS.gt weather.(Weather.precipitation) 5 then fair else good);
     ("Cycling", excellent); ("Picnic", excellent); ("Museum", excellent)].
Proof.
  intros Hgeo Hdata Hcode Htemp.
  unfold getActivityRecommendations, getCurrentWeather.
  rewrite (bind_fulfilled _ _ _ Hgeo), (bind_fulfilled _ _ _ Hdata).
  destruct data as [current]. cbn in Hcode, Htemp.
  do 2 eexists. split; [reflexivity|].
  cbn [CurrentWeatherResponse.current Weather.conditions]. rewrite Hcode, Htemp.
  split; [reflexivity|]. split; [reflexivity|].
  reflexivity.
Qed.

Lemma paris_scenario_witness :
  ∃ weather res,
    getCurrentWeather (stub (reading 0 22 0 3) no_days) "Paris" = Fulfilled weather ∧
    weather.(Weather.conditions) = "Clear sky" ∧
    getActivityRecommendations (λ _, "22") id (stub (reading 0 22 0 3) no_days) "Paris" None
      = Fulfilled res ∧
    (λ r, (r.(Recommendation.activity), r.(Recommendation.suitability)))
      <$> res.(ActivityRecommendations.recommendations) =
    [("Hiking", excellent);
     ("Beach", if JS.gt weather.(Weather.precipitation) 5 then fair else good);
     ("Cycling", excellent); ("Picnic", excellent); ("Museum", excellent)].
Proof.
  exact (paris_scenario (λ _, "22") id (stub (reading 0 22 0 3) no_days) "Paris" None
           paris {| CurrentWeatherResponse.current := reading 0 22 0 3 |}
           eq_refl eq_refl eq_refl eq_refl).
Defined.

(** ** Clothing recommender *)

Ltac dress := split; [reflexivity | split; [by eexists | auto]].

(** One clause of the ladder: its guards contradict the case at hand, or
    the outfit is the one of the case. *)
Ltac rung :=
  intros;
  first
    [ congruence
    | dress
    | match goal with Ht : _ = _ :> float |- _ => rewrite Ht in *; congruence end ].

Lemma wears_unique (c : Clothing.t) (tier tier' : Tier) :
  wears c tier → wears c tier' → tier = tier'.
Proof.
  intros [Hl _] [Hl' _]. rewrite Hl in Hl'.
  destruct tier, tier'; (reflexivity || discriminate Hl').
Qed.

(** C4, as the specification states it, fails: at a temperature of exactly
    0, 10 or 20 the rung below the boundary (guarded by [< 0], [< 10],
    [< 20]) is not the one selected. *)
Lemma getClothingRecommendations_boundary_counterexample :
  (∃ res, getClothingRecommendations id (stub (reading 0 0 0 3) no_days) "Paris" None
            = Fulfilled res ∧
          ¬ wears res.(ClothingRecommendations.recommendations) below_0) ∧
  (∃ res, getClothingRecommendations id (stub (reading 0 10 0 3) no_days) "Paris" None
            = Fulfilled res ∧
          ¬ wears res.(ClothingRecommendations.recommendations) below_10) ∧
  (∃ res, getClothingRecommendations id (stub (reading 0 20 0 3) no_days) "Paris" None
            = Fulfilled res ∧
          ¬ wears res.(ClothingRecommendations.recommendations) below_20).
Proof.
  repeat split; (eexists; split; [reflexivity|]); intros [Hl _]; discriminate Hl.
Qed.

(** C4, amended. Whatever the temperature, the recommendation is built on
    exactly one of the four base outfits, chosen by the ladder
    temperature < 0, else < 10, else < 20, else warm, the first guard that
    holds winning.  At a temperature of exactly 0, 10 or 20 the strict
    comparison with that threshold fails and the next rung is taken: the
    outfit of [< 10] at 0, of [< 20] at 10, the warm one at 20. *)
Theorem getClothingRecommendations_ladder
  (toLowerCase : string → string)
  (P : Provider) (location : string) (activity : option string) (weather : Weather.t) :
  getCurrentWeather P location = Fulfilled weather →
  ∃ res,
    getClothingRecommendations toLowerCase P location activity = Fulfilled res ∧
    let t := weather.(Weather.temperature) in
    let c := res.(ClothingRecommendations.recommendations) in
    (∃ tier, wears c tier ∧ ∀ tier', wears c tier' → tier' = tier)
    ∧ (PrimFloat.ltb t 0 = true → wears c below_0)
    ∧ (PrimFloat.ltb t 0 = false → PrimFloat.ltb t 10 = true → wears c below_10)
    ∧ (PrimFloat.ltb t 0 = false → PrimFloat.ltb t 10 = false →
       PrimFloat.ltb t 20 = true → wears c below_20)
    ∧ (PrimFloat.ltb t 0 = false → PrimFloat.ltb t 10 = false →
       PrimFloat.ltb t 20 = false → wears c warm)
    ∧ (t = 0%float → wears c below_10)
    ∧ (t = 10%float → wears c below_20)
    ∧ (t = 20%float → wears c warm).
Proof.
  intros Hw. unfold getClothingRecommendations. rewrite (bind_fulfilled _ _ _ Hw).
  unfold JS.lt, JS.gt. cbv zeta.
  set (t := weather.(Weather.temperature)).
  assert (B0 : PrimFloat.ltb 0 0 = false ∧ PrimFloat.ltb 0 10 = true) by done.
  assert (B10 : PrimFloat.ltb 10 0 = false ∧ PrimFloat.ltb 10 10 = false
                ∧ PrimFloat.ltb 10 20 = true) by done.
  assert (B20 : PrimFloat.ltb 20 0 = false ∧ PrimFloat.ltb 20 10 = false
                ∧ PrimFloat.ltb 20 20 = false) by done.
  destruct B0 as [? ?], B10 as (? & ? & ?), B20 as (? & ? & ?).
  destruct (PrimFloat.ltb t 0) eqn:Ht0, (PrimFloat.ltb t 10) eqn:Ht10,
    (PrimFloat.ltb t 20) eqn:Ht20,
    (PrimFloat.ltb 5 weather.(Weather.precipitation)),
    (from_option (λ a, JS.includes (toLowerCase a) "hiking") false activity);
    (eexists; split; [reflexivity|]);
    cbn [ClothingRecommendations.recommendations];
    (split;
     [ first [exists below_0; split; [dress|] | exists below_10; split; [dress|]
             | exists below_20; split; [dress|] | exists warm; split; [dress|] ];
       intros tier' H'; eapply wears_unique; [exact H' | dress]
     | do 6 (split; [rung|]); rung ]).
Qed.

(** At exactly 10 degrees the outfit is the one of the rung [< 20]. *)
Lemma getClothingRecommendations_ladder_witness :
  ∃ res,
    getClothingRecommendations id (stub (reading 0 10 0 3) no_days) "Paris" None
      = Fulfilled res ∧
    wears res.(ClothingRecommendations.recommendations) below_20.
Proof.
  destruct (getClothingRecommendations_ladder id (stub (reading 0 10 0 3) no_days) "Paris" None
              (observed 0 10 0 3) eq_refl)
    as (res & Hres & _ & _ & _ & _ & _ & _ & H10 & _).
  exists res. split; [exact Hres | exact (H10 eq_refl)].
Defined.

(** ** Forecast fetcher *)

(** C6, as the specification states it, fails: the number of entries and
    their order are the provider's.  Asked for 3 days, a provider that
    answers two days, latest first, yields two entries, latest first. *)
Lemma getWeatherForecast_days_counterexample :
  ∃ res,
    getWeatherForecast (stub (reading 0 22 0 3) two_days) "Paris" (Some 3%Z) = Fulfilled res ∧
    length res.(Forecast.forecast) = 2 ∧
    ForecastDay.date <$> res.(Forecast.forecast) = ["2026-11-03"; "2026-11-02"].
Proof. eexists. split; [reflexivity|]. split; reflexivity. Qed.

(** C6, amended. The fetcher asks the provider for [days] days (3 when
    [days] is left out) and returns one entry per element of the provider's
    [time] array, in the provider's order: as many entries as [time] has
    (so exactly [days] when the provider answers [days] dates), with the
    dates of [time] in the same order (so ascending when the provider's are).
    Entry [i] is built from index [i] of each parallel array: the date from
    [time], high and low from the maximum and minimum temperatures, the
    conditions by translating the weather code, then the precipitation
    probability, the wind speed and the UV index; an array too short to have
    index [i] leaves its field undefined (conditions "Unknown"). *)
Theorem getWeatherForecast_zip
  (P : Provider) (location : string) (days : option Z)
  (geo : GeocodingResult.t) (data : ForecastResponse.t) :
  geocodeLocation P location = Fulfilled geo →
  P.(daily_forecast) geo.(GeocodingResult.latitude) geo.(GeocodingResult.longitude)
    (default 3%Z days) = Fulfilled data →
  ∃ res,
    getWeatherForecast P location days = Fulfilled res ∧
    let daily := data.(ForecastResponse.daily) in
    let forecast := res.(Forecast.forecast) in
    length forecast = length daily.(Daily.time)
    ∧ (Z.of_nat (length daily.(Daily.time)) = default 3%Z days →
       Z.of_nat (length forecast) = default 3%Z days)
    ∧ ForecastDay.date <$> forecast = daily.(Daily.time)
    ∧ (∀ i day, forecast !! i = Some day →
         daily.(Daily.time) !! i = Some day.(ForecastDay.date)
         ∧ day.(ForecastDay.high) = daily.(Daily.temperature_2m_max) !! i
         ∧ day.(ForecastDay.low) = daily.(Daily.temperature_2m_min) !! i
         ∧ day.(ForecastDay.conditions) =
             from_option getWeatherCondition "Unknown" (daily.(Daily.weather_code) !! i)
         ∧ day.(ForecastDay.precipitationChance) =
             daily.(Daily.precipitation_probability_max) !! i
         ∧ day.(ForecastDay.windSpeed) = daily.(Daily.wind_speed_10m_max) !! i
         ∧ day.(ForecastDay.uvIndex) = daily.(Daily.uv_index_max) !! i).
Proof.
  intros Hgeo Hdata. unfold getWeatherForecast. cbv zeta.
  rewrite (bind_fulfilled _ _ _ Hgeo), (bind_fulfilled _ _ _ Hdata).
  eexists; split; [reflexivity|]. cbn [Forecast.forecast].
  split; [apply length_imap|]. split; [by rewrite length_imap|]. split.
  - apply list_eq. intros i. rewrite list_lookup_fmap, list_lookup_imap.
    by destruct (Daily.time _ !! i).
  - intros i day Hday. apply list_lookup_imap_Some in Hday as (date & Hdate & ->).
    cbn. by rewrite Hdate.
Qed.

(** A provider that answers the two days asked for; the entry at index 1. *)
Lemma getWeatherForecast_zip_witness :
  ∃ res,
    getWeatherForecast (stub (reading 0 22 0 3) two_days) "Paris" (Some 2%Z) = Fulfilled res ∧
    Z.of_nat (length res.(Forecast.forecast)) = 2%Z ∧
    ∀ day, res.(Forecast.forecast) !! 1 = Some day →
      day.(ForecastDay.high) = Some 12%float ∧
      day.(ForecastDay.conditions) = "Slight rain".
Proof.
  destruct (getWeatherForecast_zip (stub (reading 0 22 0 3) two_days) "Paris" (Some 2%Z)
              paris {| ForecastResponse.daily := two_days |} eq_refl eq_refl)
    as (res & Hres & _ & Hdays & _ & Hzip).
  exists res. split; [exact Hres|]. split; [exact (Hdays eq_refl)|].
  intros day Hday. destruct (Hzip 1 day Hday) as (_ & Hhigh & _ & Hcond & _).
  split; [exact Hhigh | exact Hcond].
Defined.

(** ** The order of binary64 numbers *)

Section FloatOrder.

Implicit Types x y : float.

Lemma SFcompare_antisym (f1 f2 : spec_float) :
  SFcompare f2 f1 = option_map CompOpp (SFcompare f1 f2).
Proof.
  destruct f1 as [s1|s1| |s1 m1 e1], f2 as [s2|s2| |s2 m2 e2];
    try reflexivity; try (by destruct s1); try (by destruct s2);
    try (by destruct s1, s2).
  cbn. rewrite (Z.compare_antisym e1 e2).
  destruct s1, s2, (e1 ?= e2)%Z; cbn; try reflexivity;
    by rewrite Pos.compare_cont_antisym, ?CompOpp_involutive.
Qed.

Lemma SFcompare_refl (f : spec_float) : f ≠ S754_nan → SFcompare f f = Some Eq.
Proof.
  destruct f as [s|s| |s m e]; try done; intros _; cbn.
  - by destruct s.
  - rewrite Z.compare_refl, Pos.compare_cont_refl. by destruct s.
Qed.

Lemma SFcompare_None (f1 f2 : spec_float) :
  SFcompare f1 f2 = None → f1 = S754_nan ∨ f2 = S754_nan.
Proof.
  destruct f1 as [s1|s1| |s1 m1 e1], f2 as [s2|s2| |s2 m2 e2]; cbn; auto; discriminate.
Qed.

Lemma is_nan_false x : is_nan x = false ↔ Prim2SF x ≠ S754_nan.
Proof.
  unfold is_nan. rewrite FloatAxioms.eqb_spec. unfold SFeqb. split.
  - intros H Hn. rewrite Hn in H. discriminate H.
  - intros H. by rewrite (SFcompare_refl _ H).
Qed.

Lemma leb_not_nan x y : PrimFloat.leb x y = true → is_nan x = false ∧ is_nan y = false.
Proof.
  rewrite leb_spec, !is_nan_false. unfold SFleb.
  destruct (Prim2SF x), (Prim2SF y); cbn; try discriminate; done.
Qed.

Lemma ltb_leb x y : PrimFloat.ltb x y = true → PrimFloat.leb x y = true.
Proof.
  rewrite ltb_spec, leb_spec. unfold SFltb, SFleb.
  by destruct (SFcompare _ _) as [[]|].
Qed.

Lemma leb_not_ltb x y : PrimFloat.leb x y = true → PrimFloat.ltb y x = false.
Proof.
  rewrite ltb_spec, leb_spec. unfold SFltb, SFleb.
  rewrite (SFcompare_antisym (Prim2SF x)).
  by destruct (SFcompare _ _) as [[]|].
Qed.

Lemma not_ltb_leb x y :
  is_nan x = false → is_nan y = false → PrimFloat.ltb y x = false → PrimFloat.leb x y = true.
Proof.
  rewrite !is_nan_false, ltb_spec, leb_spec. unfold SFltb, SFleb.
  intros Hx Hy. rewrite (SFcompare_antisym (Prim2SF x)).
  destruct (SFcompare _ _) as [[]|] eqn:Hc; cbn; try done.
  by destruct (SFcompare_None _ _ Hc).
Qed.



(** Rounding a non-negative mantissa never produces [NaN]. *)

Lemma shr_1_nonneg (mrs : shr_record) : (0 ≤ shr_m mrs → 0 ≤ shr_m (shr_1 mrs))%Z.
Proof. destruct mrs as [[|[p|p|]|p] r s]; cbn; lia. Qed.

Lemma iter_pos_shr_1_nonneg (p : positive) (mrs : shr_record) :
  (0 ≤ shr_m mrs → 0 ≤ shr_m (SpecFloat.iter_pos shr_1 p mrs))%Z.
Proof.
  revert mrs. induction p as [p IH|p IH|]; intros mrs Hm; cbn.
  - by apply IH, IH, shr_1_nonneg.
  - by apply IH, IH.
  - by apply shr_1_nonneg.
Qed.

Lemma shr_fexp_nonneg (m e : Z) (l : location) :
  (0 ≤ m → 0 ≤ shr_m (shr_fexp prec emax m e l).1)%Z.
Proof.
  intros Hm. unfold shr_fexp, shr.
  assert (0 ≤ shr_m (shr_record_of_loc m l))%Z by (by destruct l as [|[]]).
  destruct (_ - e)%Z; cbn; try done. by apply iter_pos_shr_1_nonneg.
Qed.

Lemma binary_round_aux_not_nan (sx : bool) (mx ex : Z) (lx : location) :
  (0 ≤ mx)%Z → binary_round_aux prec emax sx mx ex lx ≠ S754_nan.
Proof.
  intros Hm. unfold binary_round_aux.
  pose proof (shr_fexp_nonneg mx ex lx Hm) as H1.
  destruct (shr_fexp prec emax mx ex lx) as [mrs' e']. cbn in H1.
  assert (H2 : (0 ≤ round_nearest_even (shr_m mrs') (loc_of_shr_record mrs'))%Z).
  { unfold round_nearest_even.
    destruct (loc_of_shr_record mrs') as [|[]]; try destruct (Z.even _); lia. }
  pose proof (shr_fexp_nonneg _ e' loc_Exact H2) as H3.
  destruct (shr_fexp prec emax _ e' loc_Exact) as [mrs'' e'']. cbn in H3.
  destruct (shr_m mrs''); [done| |lia]. by destruct (_ <=? _)%Z.
Qed.

(** A finite, non-zero number times a number is a number. *)
Lemma mul_not_nan x y :
  (∃ s m e, Prim2SF x = S754_finite s m e) →
  is_nan y = false → is_nan (x * y) = false.
Proof.
  intros (s & m & e & Hx) Hy%is_nan_false. apply is_nan_false.
  rewrite mul_spec, Hx. unfold SF64mul.
  destruct (Prim2SF y) as [sy|sy| |sy my ey]; cbn; try done.
  by apply binary_round_aux_not_nan.
Qed.

End FloatOrder.

(** [Math.max(0, Math.min(1, z))] *)

Lemma clamp_cases (z : float) :
  is_nan z = false →
  JS.Math_max 0 (JS.Math_min 1 z) =
    if PrimFloat.ltb 1 z then 1%float
    else if PrimFloat.ltb 0 z then z else 0%float.
Proof.
  intros Hz. unfold JS.Math_min. rewrite Hz. cbn [orb is_nan negb].
  change (is_nan 1) with false. cbn [orb].
  change (get_sign 1) with false.
  destruct (PrimFloat.ltb 1 z) eqn:H1.
  - reflexivity.
  - assert (Hm : (if PrimFloat.ltb z 1 then z else z) = z) by (by destruct (PrimFloat.ltb z 1)).
    rewrite Hm. unfold JS.Math_max. rewrite Hz.
    change (is_nan 0) with false. cbn [orb]. change (get_sign 0) with false.
    destruct (PrimFloat.ltb 0 z); [reflexivity|]. by destruct (PrimFloat.ltb z 0).
Qed.

Lemma clamp_range (z : float) :
  is_nan z = false →
  PrimFloat.leb 0 (JS.Math_max 0 (JS.Math_min 1 z)) = true ∧
  PrimFloat.leb (JS.Math_max 0 (JS.Math_min 1 z)) 1 = true.
Proof.
  intros Hz. rewrite (clamp_cases z Hz).
  destruct (PrimFloat.ltb 1 z) eqn:H1; [done|].
  destruct (PrimFloat.ltb 0 z) eqn:H0; [|done].
  split; [by apply ltb_leb | by apply not_ltb_leb].
Qed.


(** ** Scorers *)








(** The clamp does not turn [NaN] into a number: a confidence that is not
    a number gives a score that is not a number. *)
Example generateScore_nan_confidence :
  is_nan (toolCallAppropriatenessScorer.generateScore (judged {|
    AnalyzeStepResult.appropriateness := Some "good";
    AnalyzeStepResult.completeness := None;
    AnalyzeStepResult.confidence := Some nan |})) = true.
Proof. reflexivity. Qed.


(** * Further properties *)

(** ** Order of floating-point comparisons *)

Lemma SFcompare_finite_cases (s1 s2 : bool) (m1 m2 : positive) (e1 e2 : Z) (c : comparison) :
  SFcompare (S754_finite s1 m1 e1) (S754_finite s2 m2 e2) = Some c →
  match s1, s2 with
  | true, false => c = Lt
  | false, true => c = Gt
  | false, false =>
      (c = Lt ∧ (e1 < e2 ∨ e1 = e2 ∧ (m1 < m2)%positive))%Z ∨
      (c = Eq ∧ e1 = e2 ∧ m1 = m2) ∨
      (c = Gt ∧ (e2 < e1 ∨ e1 = e2 ∧ (m2 < m1)%positive))%Z
  | true, true =>
      (c = Gt ∧ (e1 < e2 ∨ e1 = e2 ∧ (m1 < m2)%positive))%Z ∨
      (c = Eq ∧ e1 = e2 ∧ m1 = m2) ∨
      (c = Lt ∧ (e2 < e1 ∨ e1 = e2 ∧ (m2 < m1)%positive))%Z
  end.
Proof.
  cbn. change (PosDef.Pos.compare_cont Eq m1 m2) with (Pos.compare m1 m2).
  destruct s1, s2; intros [= <-]; try reflexivity;
    destruct (Z.compare_spec e1 e2), (Pos.compare_spec m1 m2); cbn;
    solve [ left; split; [reflexivity|lia]
          | right; left; split; [reflexivity|lia]
          | right; right; split; [reflexivity|lia] ].
Qed.

Ltac compared :=
  repeat match goal with
  | H : Some _ = Some _ |- _ => injection H as <-
  | H : None = Some _ |- _ => discriminate H
  end.

Lemma SFcompare_trans (a b c : spec_float) (cab cbc : comparison) :
  SFcompare a b = Some cab → SFcompare b c = Some cbc →
  cab ≠ Gt → cbc ≠ Gt →
  ∃ cac, SFcompare a c = Some cac ∧ cac ≠ Gt ∧ (cab = Lt ∨ cbc = Lt → cac = Lt).
Proof.
  intros Hab Hbc.
  destruct a as [sa|sa| |sa ma ea], b as [sb|sb| |sb mb eb], c as [sc|sc| |sc mc ec];
    try discriminate Hab; try discriminate Hbc.
  all: try (destruct sa, sb, sc; cbn in Hab, Hbc; compared; cbn;
            intros; eexists; (split; [reflexivity|]);
            (split; [congruence | intros [?|?]; congruence])).
  intros Hab' Hbc'.
  assert (∃ cac, SFcompare (S754_finite sa ma ea) (S754_finite sc mc ec) = Some cac)
    as [cac Hac] by (cbn; eauto).
  exists cac. split; [exact Hac|].
  apply SFcompare_finite_cases in Hab, Hbc, Hac.
  destruct sa, sb, sc; cbn in Hab, Hbc, Hac;
    repeat match goal with
    | H : _ ∨ _ |- _ => destruct H
    | H : _ ∧ _ |- _ => destruct H
    end; subst; try congruence;
    (split; [congruence || lia | intros [?|?]; first [reflexivity | congruence | lia]]).
Qed.

Section Order.
Implicit Types x y z : float.

Lemma leb_trans x y z :
  PrimFloat.leb x y = true → PrimFloat.leb y z = true → PrimFloat.leb x z = true.
Proof.
  rewrite !leb_spec. unfold SFleb.
  destruct (SFcompare (Prim2SF x) (Prim2SF y)) as [cab|] eqn:Hab; [|done].
  destruct (SFcompare (Prim2SF y) (Prim2SF z)) as [cbc|] eqn:Hbc; [|done].
  intros H1 H2.
  destruct (SFcompare_trans _ _ _ _ _ Hab Hbc) as (cac & -> & Hc & _);
    [by destruct cab | by destruct cbc | by destruct cac].
Qed.

Lemma ltb_leb_trans x y z :
  PrimFloat.ltb x y = true → PrimFloat.leb y z = true → PrimFloat.ltb x z = true.
Proof.
  rewrite !ltb_spec, leb_spec. unfold SFleb, SFltb.
  destruct (SFcompare (Prim2SF x) (Prim2SF y)) as [cab|] eqn:Hab; [|done].
  destruct (SFcompare (Prim2SF y) (Prim2SF z)) as [cbc|] eqn:Hbc; [|done].
  intros H1 H2.
  destruct (SFcompare_trans _ _ _ _ _ Hab Hbc) as (cac & -> & Hc & Hlt);
    [by destruct cab | by destruct cbc |].
  rewrite Hlt; [done|]. left. by destruct cab.
Qed.

Lemma leb_ltb_trans x y z :
  PrimFloat.leb x y = true → PrimFloat.ltb y z = true → PrimFloat.ltb x z = true.
Proof.
  rewrite !ltb_spec, leb_spec. unfold SFleb, SFltb.
  destruct (SFcompare (Prim2SF x) (Prim2SF y)) as [cab|] eqn:Hab; [|done].
  destruct (SFcompare (Prim2SF y) (Prim2SF z)) as [cbc|] eqn:Hbc; [|done].
  intros H1 H2.
  destruct (SFcompare_trans _ _ _ _ _ Hab Hbc) as (cac & -> & Hc & Hlt);
    [by destruct cab | by destruct cbc |].
  rewrite Hlt; [done|]. right. by destruct cbc.
Qed.
End Order.

(** ** Failures *)

(** X1. When the geocoder answers with no result, a missing [results] field
    or an empty list, every operation rejects with the message
    [Location '<name>' not found], whatever the weather endpoints answer. *)
Theorem location_not_found
  (Number_toString : JS.number → string) (toLowerCase : string → string)
  (P : Provider) (location : string) (response : GeocodingResponse.t)
  (days : option Z) (interests : option (list string)) (activity : option string) :
  P.(geocoding) location = Fulfilled response →
  response.(GeocodingResponse.results) = None ∨
  response.(GeocodingResponse.results) = Some [] →
  let not_found := "Location '" +:+ location +:+ "' not found" in
  geocodeLocation P location = Rejected not_found
  ∧ getCurrentWeather P location = Rejected not_found
  ∧ getWeatherForecast P location days = Rejected not_found
  ∧ getActivityRecommendations Number_toString toLowerCase P location interests
      = Rejected not_found
  ∧ getWeatherAlerts P location = Rejected not_found
  ∧ getClothingRecommendations toLowerCase P location activity = Rejected not_found.
Proof.
  intros Hgeo Hnone not_found.
  assert (Hloc : geocodeLocation P location = Rejected not_found).
  { unfold geocodeLocation. rewrite Hgeo. cbn. by destruct Hnone as [-> | ->]. }
  assert (Hcur : getCurrentWeather P location = Rejected not_found).
  { unfold getCurrentWeather. by rewrite Hloc. }
  repeat split; try done.
  - unfold getWeatherForecast. by rewrite Hloc.
  - unfold getActivityRecommendations. by rewrite Hcur.
  - unfold getWeatherAlerts. by rewrite Hcur.
  - unfold getClothingRecommendations. by rewrite Hcur.
Qed.

Lemma location_not_found_witness :
  getCurrentWeather nowhere "Atlantis" = Rejected "Location 'Atlantis' not found" ∧
  getWeatherAlerts nowhere "Atlantis" = Rejected "Location 'Atlantis' not found".
Proof.
  destruct (location_not_found (λ _, "22") id nowhere "Atlantis"
              {| GeocodingResponse.results := None |} None None None
              eq_refl (or_introl eq_refl)) as (_ & Hcur & _ & _ & Halerts & _).
  exact (conj Hcur Halerts).
Defined.

(** X2. A failed request is passed on unchanged.  When the geocoding request
    fails with a message, every operation rejects with that message; when the
    place is found and the current-weather request fails, the current
    reading and the three derivations reject with that message; when the
    daily-forecast request fails, the forecast does. *)
Theorem failures_propagate
  (Number_toString : JS.number → string) (toLowerCase : string → string)
  (P : Provider) (location : string) (message : string)
  (days : option Z) (interests : option (list string)) (activity : option string) :
  (P.(geocoding) location = Rejected message →
     geocodeLocation P location = Rejected message
     ∧ getCurrentWeather P location = Rejected message
     ∧ getWeatherForecast P location days = Rejected message
     ∧ getActivityRecommendations Number_toString toLowerCase P location interests
         = Rejected message
     ∧ getWeatherAlerts P location = Rejected message
     ∧ getClothingRecommendations toLowerCase P location activity = Rejected message)
  ∧ (∀ geo, geocodeLocation P location = Fulfilled geo →
       P.(current_weather) geo.(GeocodingResult.latitude) geo.(GeocodingResult.longitude)
         = Rejected message →
       getCurrentWeather P location = Rejected message
       ∧ getActivityRecommendations Number_toString toLowerCase P location interests
           = Rejected message
       ∧ getWeatherAlerts P location = Rejected message
       ∧ getClothingRecommendations toLowerCase P location activity = Rejected message)
  ∧ (∀ geo, geocodeLocation P location = Fulfilled geo →
       P.(daily_forecast) geo.(GeocodingResult.latitude) geo.(GeocodingResult.longitude)
         (default 3%Z days) = Rejected message →
       getWeatherForecast P location days = Rejected message).
Proof.
  assert (Hderived : getCurrentWeather P location = Rejected message →
    getActivityRecommendations Number_toString toLowerCase P location interests
      = Rejected message
    ∧ getWeatherAlerts P location = Rejected message
    ∧ getClothingRecommendations toLowerCase P location activity = Rejected message).
  { intros Hcur.
    unfold getActivityRecommendations, getWeatherAlerts, getClothingRecommendations.
    by rewrite Hcur. }
  split; [|split].
  - intros Hgeo.
    assert (Hloc : geocodeLocation P location = Rejected message)
      by (unfold geocodeLocation; by rewrite Hgeo).
    assert (Hcur : getCurrentWeather P location = Rejected message)
      by (unfold getCurrentWeather; by rewrite Hloc).
    split; [exact Hloc|]. split; [exact Hcur|].
    split; [unfold getWeatherForecast; by rewrite Hloc | by apply Hderived].
  - intros geo Hloc Hdata.
    assert (Hcur : getCurrentWeather P location = Rejected message)
      by (unfold getCurrentWeather; rewrite (bind_fulfilled _ _ _ Hloc); by rewrite Hdata).
    split; [exact Hcur | by apply Hderived].
  - intros geo Hloc Hdata. unfold getWeatherForecast. cbv zeta.
    rewrite (bind_fulfilled _ _ _ Hloc). by rewrite Hdata.
Qed.

Lemma failures_propagate_witness :
  getWeatherForecast offline "Paris" None = Rejected "fetch failed" ∧
  getClothingRecommendations id no_weather "Paris" None = Rejected "fetch failed".
Proof.
  destruct (failures_propagate (λ _, "22") id offline "Paris" "fetch failed" None None None)
    as ((_ & _ & Hforecast & _) & _ & _); [reflexivity|].
  destruct (failures_propagate (λ _, "22") id no_weather "Paris" "fetch failed" None None None)
    as (_ & Hweather & _).
  destruct (Hweather paris eq_refl eq_refl) as (_ & _ & _ & Hclothing).
  exact (conj Hforecast Hclothing).
Defined.

(** ** The place and the reading reported *)

(** X3. Only the geocoder's first hit counts.  When it answers a non-empty
    list and the weather endpoint answers a reading for the first hit's
    coordinates, the current record and the three derivations all report the
    first hit's name (and country), not the text asked for, and the
    provider's temperature and the label of its weather code. *)
Theorem first_hit_reported
  (Number_toString : JS.number → string) (toLowerCase : string → string)
  (P : Provider) (location : string)
  (first : GeocodingResult.t) (others : list GeocodingResult.t)
  (data : CurrentWeatherResponse.t)
  (interests : option (list string)) (activity : option string) :
  P.(geocoding) location
    = Fulfilled {| GeocodingResponse.results := Some (first :: others) |} →
  P.(current_weather) first.(GeocodingResult.latitude) first.(GeocodingResult.longitude)
    = Fulfilled data →
  let name := first.(GeocodingResult.name) in
  let country := first.(GeocodingResult.country) in
  let temperature := data.(CurrentWeatherResponse.current).(Current.temperature_2m) in
  let label :=
    getWeatherCondition data.(CurrentWeatherResponse.current).(Current.weather_code) in
  ∃ weather recommended alerts clothing,
    getCurrentWeather P location = Fulfilled weather
    ∧ getActivityRecommendations Number_toString toLowerCase P location interests
        = Fulfilled recommended
    ∧ getWeatherAlerts P location = Fulfilled alerts
    ∧ getClothingRecommendations toLowerCase P location activity = Fulfilled clothing
    ∧ weather.(Weather.location) = name ∧ weather.(Weather.country) = country
    ∧ weather.(Weather.temperature) = temperature ∧ weather.(Weather.conditions) = label
    ∧ recommended.(ActivityRecommendations.location) = name
    ∧ recommended.(ActivityRecommendations.temperature) = temperature
    ∧ recommended.(ActivityRecommendations.currentConditions) = label
    ∧ alerts.(WeatherAlerts.location) = name ∧ alerts.(WeatherAlerts.country) = country
    ∧ clothing.(ClothingRecommendations.location) = name
    ∧ clothing.(ClothingRecommendations.temperature) = temperature
    ∧ clothing.(ClothingRecommendations.conditions) = label.
Proof.
  intros Hgeo Hdata name country temperature label.
  assert (Hloc : geocodeLocation P location = Fulfilled first)
    by (unfold geocodeLocation; by rewrite Hgeo).
  assert (Hcur : ∃ weather, getCurrentWeather P location = Fulfilled weather
            ∧ weather.(Weather.location) = name ∧ weather.(Weather.country) = country
            ∧ weather.(Weather.temperature) = temperature
            ∧ weather.(Weather.conditions) = label).
  { unfold getCurrentWeather. rewrite (bind_fulfilled _ _ _ Hloc), (bind_fulfilled _ _ _ Hdata).
    eexists. split; [reflexivity|]. by repeat split. }
  destruct Hcur as (weather & Hcur & Hname & Hcountry & Htemp & Hlabel).
  unfold getActivityRecommendations, getWeatherAlerts, getClothingRecommendations.
  rewrite !(bind_fulfilled _ _ _ Hcur). cbv zeta.
  destruct (JS.lt weather.(Weather.temperature) 0),
    (JS.lt weather.(Weather.temperature) 10), (JS.lt weather.(Weather.temperature) 20),
    (JS.gt weather.(Weather.precipitation) 5),
    (from_option (λ a, JS.includes (toLowerCase a) "hiking") false activity);
    (exists weather; do 3 eexists; split; [exact Hcur|]; do 3 (split; [reflexivity|]);
     by repeat split).
Qed.

Lemma first_hit_reported_witness :
  ∃ weather alerts,
    getCurrentWeather (stub (reading 3 12 0 3) no_days) "paris, fr" = Fulfilled weather ∧
    getWeatherAlerts (stub (reading 3 12 0 3) no_days) "paris, fr" = Fulfilled alerts ∧
    weather.(Weather.location) = "Paris" ∧ weather.(Weather.conditions) = "Overcast" ∧
    alerts.(WeatherAlerts.country) = "France".
Proof.
  destruct (first_hit_reported (λ _, "12") id (stub (reading 3 12 0 3) no_days) "paris, fr"
              paris [] {| CurrentWeatherResponse.current := reading 3 12 0 3 |} None None
              eq_refl eq_refl)
    as (weather & _ & alerts & _ & Hw & _ & Ha & _ & Hname & _ & _ & Hlabel & _ & _ & _ & _
        & Hcountry & _).
  exists weather, alerts. exact (conj Hw (conj Ha (conj Hname (conj Hlabel Hcountry)))).
Defined.

(** ** Condition labels *)

Lemma getWeatherCondition_inj (code1 code2 : Z) :
  code1 ∈ knownCodes → code2 ∈ knownCodes →
  getWeatherCondition code1 = getWeatherCondition code2 → code1 = code2.
Proof.
  assert (Hnd : NoDup (getWeatherCondition <$> knownCodes))
    by (apply (bool_decide_unpack _); by vm_compute).
  revert code1 code2. generalize dependent knownCodes.
  induction l as [|a l IH]; cbn; intros Hnd x y Hx Hy Hf; [by apply elem_of_nil in Hx|].
  apply NoDup_cons in Hnd as [Ha Hnd].
  apply elem_of_cons in Hx as [->|Hx]; apply elem_of_cons in Hy as [->|Hy]; auto.
  - destruct Ha. rewrite Hf. by apply list_elem_of_fmap_2.
  - destruct Ha. rewrite <- Hf. by apply list_elem_of_fmap_2.
Qed.

Lemma getWeatherCondition_unknown (code : Z) :
  getWeatherCondition code = "Unknown" ↔ code ∉ knownCodes.
Proof.
  split.
  - intros Hlabel Hcode.
    assert (Hno : "Unknown" ∉ getWeatherCondition <$> knownCodes)
      by (apply (bool_decide_unpack _); by vm_compute).
    apply Hno. rewrite <- Hlabel. by apply list_elem_of_fmap_2.
  - intros Hcode. unfold getWeatherCondition, conditions.
    rewrite (not_elem_of_list_to_map_1 _ code); done.
Qed.

(** X4. The label tells the code: two codes of the table with the same label
    are the same code, and the label is "Unknown" exactly for the integers
    outside the table. *)
Theorem getWeatherCondition_decodable :
  (∀ code1 code2 : Z, code1 ∈ knownCodes → code2 ∈ knownCodes →
     getWeatherCondition code1 = getWeatherCondition code2 → code1 = code2)
  ∧ (∀ code : Z, getWeatherCondition code = "Unknown" ↔ code ∉ knownCodes).
Proof. split; [exact getWeatherCondition_inj | exact getWeatherCondition_unknown]. Qed.

Lemma getWeatherCondition_decodable_witness :
  (getWeatherCondition 100 = "Unknown" ↔ (100 ∉ knownCodes)%Z) ∧
  (getWeatherCondition 61 = "Unknown" ↔ (61 ∉ knownCodes)%Z).
Proof.
  exact (conj (proj2 getWeatherCondition_decodable 100%Z)
              (proj2 getWeatherCondition_decodable 61%Z)).
Defined.

(** ** The recommendations as a function of the reading *)

Lemma getActivityRecommendations_names
  (Number_toString : JS.number → string) (toLowerCase : string → string)
  (P : Provider) (location : string) (interests : option (list string))
  (weather : Weather.t) :
  getCurrentWeather P location = Fulfilled weather →
  ∃ res,
    getActivityRecommendations Number_toString toLowerCase P location interests
      = Fulfilled res ∧
    Recommendation.activity <$> res.(ActivityRecommendations.recommendations) =
      take 5 (Activity.activity <$> filter (suitableFor weather) allActivities) ∧
    ∀ r, r ∈ res.(ActivityRecommendations.recommendations) →
      r.(Recommendation.indoorAlternative) = getIndoorAlternative r.(Recommendation.activity)
      ∧ r.(Recommendation.reason) =
          getActivityReason Number_toString toLowerCase r.(Recommendation.activity) weather.
Proof.
  intros Hw. unfold getActivityRecommendations. rewrite (bind_fulfilled _ _ _ Hw).
  eexists; split; [reflexivity|]. cbn [ActivityRecommendations.recommendations]. split.
  - rewrite fmap_take, <- list_fmap_compose. reflexivity.
  - intros r Hr%elem_of_take_elem.
    apply list_elem_of_fmap in Hr as (act & -> & _). by split.
Qed.

Lemma suitableFor_spec (weather : Weather.t) (act : Activity.t) :
  suitableFor weather act ↔
    PrimFloat.leb act.(Activity.tempRange).1 weather.(Weather.temperature) = true
    ∧ PrimFloat.leb weather.(Weather.temperature) act.(Activity.tempRange).2 = true
    ∧ ("All" ∈ act.(Activity.conditions)
       ∨ weather.(Weather.conditions) ∈ act.(Activity.conditions)).
Proof.
  unfold suitableFor, JS.ge, JS.le. cbv zeta.
  rewrite !andb_True, orb_True, !bool_decide_spec, !Is_true_true. tauto.
Qed.

Lemma filter_none {A} (P : A → Prop) `{!∀ x, Decision (P x)} (l : list A) :
  (∀ x, x ∈ l → ¬ P x) → filter P l = [].
Proof.
  induction l as [|a l IH]; [done|]. intros Hl.
  rewrite filter_cons_False by (apply Hl, list_elem_of_here).
  apply IH. intros x Hx. by apply Hl, list_elem_of_further.
Qed.

(** Every range of the catalog lies within [-10, 40]. *)
Lemma catalog_within (weather : Weather.t) (act : Activity.t) :
  act ∈ allActivities →
  PrimFloat.leb act.(Activity.tempRange).1 weather.(Weather.temperature) = true →
  PrimFloat.leb weather.(Weather.temperature) act.(Activity.tempRange).2 = true →
  PrimFloat.leb (-10) weather.(Weather.temperature) = true ∧
  PrimFloat.leb weather.(Weather.temperature) 40 = true.
Proof.
  unfold allActivities. rewrite !elem_of_cons, elem_of_nil. intros Hact Hmin Hmax.
  repeat (destruct Hact as [->|Hact]; [|]); try contradiction;
    cbn [Activity.tempRange fst snd] in Hmin, Hmax;
    (split; [eapply leb_trans; [|exact Hmin] | eapply leb_trans; [exact Hmax|]]);
    reflexivity.
Qed.

(** X5. The recommender returns nothing exactly when the temperature is
    outside [-10, 40] (a temperature that is not a number included);
    inside, Museum is always among the recommendations. *)
Theorem getActivityRecommendations_empty
  (Number_toString : JS.number → string) (toLowerCase : string → string)
  (P : Provider) (location : string) (interests : option (list string))
  (weather : Weather.t) :
  getCurrentWeather P location = Fulfilled weather →
  ∃ res,
    getActivityRecommendations Number_toString toLowerCase P location interests
      = Fulfilled res ∧
    let recs := res.(ActivityRecommendations.recommendations) in
    let inside :=
      PrimFloat.leb (-10) weather.(Weather.temperature) &&
      PrimFloat.leb weather.(Weather.temperature) 40 in
    (recs = [] ↔ inside = false)
    ∧ (inside = true → "Museum" ∈ Recommendation.activity <$> recs)
    ∧ (is_nan weather.(Weather.temperature) = true → recs = []).
Proof.
  intros Hw.
  destruct (getActivityRecommendations_names Number_toString toLowerCase P location
              interests weather Hw) as (res & Hres & Hnames & _).
  exists res. split; [exact Hres|]. cbv zeta.
  set (recs := res.(ActivityRecommendations.recommendations)) in *.
  assert (Hin : PrimFloat.leb (-10) weather.(Weather.temperature) &&
                PrimFloat.leb weather.(Weather.temperature) 40 = true →
                "Museum" ∈ Recommendation.activity <$> recs).
  { intros [Hmin Hmax]%andb_true_iff. rewrite Hnames.
    apply (elem_of_take_fmap_filter Activity.activity _ allActivities 4
             {| Activity.activity := "Museum";
                Activity.tempRange := (-10, 40)%float;
                Activity.conditions := ["All"] |}); [reflexivity| |].
    - apply suitableFor_spec. cbn. split; [done|]. split; [done|].
      left. apply list_elem_of_here.
    - eapply Nat.le_lt_trans; [apply length_filter|]. cbn. lia. }
  assert (Hout : PrimFloat.leb (-10) weather.(Weather.temperature) &&
                 PrimFloat.leb weather.(Weather.temperature) 40 = false → recs = []).
  { intros Hout. apply fmap_nil_inv with (f := Recommendation.activity).
    rewrite Hnames. rewrite filter_none; [done|].
    intros act Hact (Hmin & Hmax & _)%suitableFor_spec.
    destruct (catalog_within weather act Hact Hmin Hmax) as [H1 H2].
    by rewrite H1, H2 in Hout. }
  split; [|split].
  - split; [|exact Hout].
    intros Hnil. destruct (_ && _) eqn:Hinside; [|done].
    specialize (Hin eq_refl). rewrite Hnil in Hin. by apply elem_of_nil in Hin.
  - exact Hin.
  - intros Hnan. apply Hout. apply andb_false_iff. left.
    destruct (PrimFloat.leb (-10) _) eqn:Hle; [|done].
    apply leb_not_nan in Hle as [_ Hle]. congruence.
Qed.

Lemma getActivityRecommendations_empty_witness :
  ∃ res,
    getActivityRecommendations (λ _, "41") id (stub (reading 0 41 0 3) no_days) "Paris" None
      = Fulfilled res ∧
    res.(ActivityRecommendations.recommendations) = [].
Proof.
  destruct (getActivityRecommendations_empty (λ _, "41") id
              (stub (reading 0 41 0 3) no_days) "Paris" None (observed 0 41 0 3) eq_refl)
    as (res & Hres & Hempty & _).
  exists res. split; [exact Hres|]. apply Hempty. reflexivity.
Defined.

(** ** Weather code and outdoor activities *)

(** The label of a known code other than [code0] is not the label of
    [code0]. *)
Lemma getWeatherCondition_other (code code0 : Z) :
  code0 ∈ knownCodes → getWeatherCondition code0 ≠ "Unknown" →
  code ≠ code0 → getWeatherCondition code ≠ getWeatherCondition code0.
Proof.
  intros H0 Hknown Hne Heq. destruct (decide (code ∈ knownCodes)) as [Hin|Hout].
  - by apply Hne, getWeatherCondition_inj.
  - apply getWeatherCondition_unknown in Hout. congruence.
Qed.

Lemma fair_only (act : Activity.t) (label : string) :
  act ∈ allActivities →
  "All" ∈ act.(Activity.conditions) ∨ label ∈ act.(Activity.conditions) →
  label ∉ ["Clear sky"; "Mainly clear"; "Partly cloudy"] →
  act.(Activity.activity) ∈ ["Museum"; "Shopping"; "Restaurant"].
Proof.
  unfold allActivities. rewrite !elem_of_cons, elem_of_nil. intros Hact Hc Hlabel.
  repeat (destruct Hact as [->|Hact]; [|]); try contradiction;
    cbn [Activity.activity Activity.conditions] in *; set_unfold;
    (tauto || intuition congruence).
Qed.

Lemma beach_only (act : Activity.t) (label : string) :
  act ∈ allActivities → act.(Activity.activity) = "Beach" →
  "All" ∈ act.(Activity.conditions) ∨ label ∈ act.(Activity.conditions) →
  label ∈ ["Clear sky"; "Mainly clear"].
Proof.
  unfold allActivities. rewrite !elem_of_cons, elem_of_nil. intros Hact Hname Hc.
  repeat (destruct Hact as [->|Hact]; [|]); try contradiction;
    cbn [Activity.activity Activity.conditions] in *; try discriminate Hname;
    set_unfold; intuition congruence.
Qed.

(** X6. Outdoor activities need fair weather.  Unless the weather code is 0,
    1 or 2 (clear, mainly clear, partly cloudy), only Museum, Shopping and
    Restaurant can be recommended, whatever the temperature; and Beach is
    recommended only with code 0 or 1. *)
Theorem outdoor_needs_fair_weather
  (Number_toString : JS.number → string) (toLowerCase : string → string)
  (P : Provider) (location : string) (interests : option (list string))
  (geo : GeocodingResult.t) (data : CurrentWeatherResponse.t) :
  geocodeLocation P location = Fulfilled geo →
  P.(current_weather) geo.(GeocodingResult.latitude) geo.(GeocodingResult.longitude)
    = Fulfilled data →
  let code := data.(CurrentWeatherResponse.current).(Current.weather_code) in
  ∃ res,
    getActivityRecommendations Number_toString toLowerCase P location interests
      = Fulfilled res ∧
    let names := Recommendation.activity <$> res.(ActivityRecommendations.recommendations) in
    (code ∉ [0; 1; 2]%Z → ∀ name, name ∈ names → name ∈ ["Museum"; "Shopping"; "Restaurant"])
    ∧ (code ∉ [0; 1]%Z → "Beach" ∉ names).
Proof.
  intros Hgeo Hdata code.
  assert (Hw : ∃ weather, getCurrentWeather P location = Fulfilled weather ∧
                 weather.(Weather.conditions) = getWeatherCondition code).
  { unfold getCurrentWeather.
    rewrite (bind_fulfilled _ _ _ Hgeo), (bind_fulfilled _ _ _ Hdata). by eexists. }
  destruct Hw as (weather & Hw & Hlabel).
  destruct (getActivityRecommendations_names Number_toString toLowerCase P location
              interests weather Hw) as (res & Hres & Hnames & _).
  exists res. split; [exact Hres|]. cbv zeta. rewrite Hnames.
  assert (Hk : (0 ∈ knownCodes ∧ 1 ∈ knownCodes ∧ 2 ∈ knownCodes)%Z)
    by (repeat split; apply (bool_decide_unpack _); by vm_compute).
  destruct Hk as (Hk0 & Hk1 & Hk2).
  pose proof (getWeatherCondition_other code 0 Hk0 ltac:(done)) as H0.
  pose proof (getWeatherCondition_other code 1 Hk1 ltac:(done)) as H1.
  pose proof (getWeatherCondition_other code 2 Hk2 ltac:(done)) as H2.
  change (getWeatherCondition 0) with "Clear sky" in H0.
  change (getWeatherCondition 1) with "Mainly clear" in H1.
  change (getWeatherCondition 2) with "Partly cloudy" in H2.
  assert (Hsurvivor : ∀ name, name ∈ take 5 (Activity.activity <$>
              filter (suitableFor weather) allActivities) →
            ∃ act, act ∈ allActivities ∧ act.(Activity.activity) = name ∧
              ("All" ∈ act.(Activity.conditions)
               ∨ getWeatherCondition code ∈ act.(Activity.conditions))).
  { intros name Hname%elem_of_take_elem.
    apply list_elem_of_fmap in Hname as (act & -> & Hact).
    apply list_elem_of_filter in Hact as [(_ & _ & Hc)%suitableFor_spec Hact].
    rewrite Hlabel in Hc. by exists act. }
  split.
  - intros Hcode name (act & Hact & <- & Hc)%Hsurvivor.
    apply (fair_only act _ Hact Hc).
    rewrite !not_elem_of_cons in Hcode. destruct Hcode as (? & ? & ? & _).
    rewrite !not_elem_of_cons.
    repeat split; auto using not_elem_of_nil.
  - intros Hcode (act & Hact & Hname & Hc)%Hsurvivor.
    pose proof (beach_only act _ Hact Hname Hc) as Hfair.
    rewrite !not_elem_of_cons in Hcode. destruct Hcode as (? & ? & _).
    rewrite !elem_of_cons, elem_of_nil in Hfair.
    destruct Hfair as [Hf|[Hf|[]]]; [by apply H0 in Hf | by apply H1 in Hf].
Qed.

(** Moderate rain at 22 degrees: no Hiking. *)
Lemma outdoor_needs_fair_weather_witness :
  ∃ res,
    getActivityRecommendations (λ _, "22") id (stub (reading 63 22 2 3) no_days) "Paris" None
      = Fulfilled res ∧
    "Hiking" ∉ Recommendation.activity <$> res.(ActivityRecommendations.recommendations).
Proof.
  destruct (outdoor_needs_fair_weather (λ _, "22") id
              (stub (reading 63 22 2 3) no_days) "Paris" None
              paris {| CurrentWeatherResponse.current := reading 63 22 2 3 |}
              eq_refl eq_refl) as (res & Hres & Hindoor & _).
  exists res. split; [exact Hres|].
  intros Hhiking. apply Hindoor in Hhiking.
  - rewrite !elem_of_cons, elem_of_nil in Hhiking.
    destruct Hhiking as [H|[H|[H|[]]]]; discriminate H.
  - cbn. rewrite !not_elem_of_cons. repeat split; (done || apply not_elem_of_nil).
Defined.

(** ** The limit of five *)

Lemma filter_all {A} (P : A → Prop) `{!∀ x, Decision (P x)} (l : list A) :
  (∀ x, x ∈ l → P x) → filter P l = l.
Proof.
  induction l as [|a l IH]; [done|]. intros Hl.
  rewrite filter_cons_True by (apply Hl, list_elem_of_here).
  f_equal. apply IH. intros x Hx. by apply Hl, list_elem_of_further.
Qed.

(** X7. In the best weather the indoor options are cut.  Under a clear or
    mainly clear sky with 20 <= temperature <= 28 all seven catalog
    activities pass the filter, and the limit of five, which keeps catalog
    order, returns Hiking, Beach, Cycling, Picnic and Museum: Shopping and
    Restaurant are never returned then. *)
Theorem best_weather_first_five
  (Number_toString : JS.number → string) (toLowerCase : string → string)
  (P : Provider) (location : string) (interests : option (list string))
  (weather : Weather.t) :
  getCurrentWeather P location = Fulfilled weather →
  weather.(Weather.conditions) ∈ ["Clear sky"; "Mainly clear"] →
  PrimFloat.leb 20 weather.(Weather.temperature) = true →
  PrimFloat.leb weather.(Weather.temperature) 28 = true →
  ∃ res,
    getActivityRecommendations Number_toString toLowerCase P location interests
      = Fulfilled res ∧
    filter (suitableFor weather) allActivities = allActivities ∧
    Recommendation.activity <$> res.(ActivityRecommendations.recommendations) =
      ["Hiking"; "Beach"; "Cycling"; "Picnic"; "Museum"].
Proof.
  intros Hw Hsky Hmin Hmax.
  destruct (getActivityRecommendations_names Number_toString toLowerCase P location
              interests weather Hw) as (res & Hres & Hnames & _).
  exists res. split; [exact Hres|].
  assert (Hall : filter (suitableFor weather) allActivities = allActivities).
  { apply filter_all. intros act Hact. apply suitableFor_spec.
    unfold allActivities in Hact. rewrite !elem_of_cons, elem_of_nil in Hact.
    repeat (destruct Hact as [->|Hact]; [|]); try contradiction;
      cbn [Activity.tempRange Activity.conditions fst snd];
      (split; [eapply leb_trans; [|exact Hmin]; reflexivity|]);
      (split; [eapply leb_trans; [exact Hmax|]; reflexivity|]);
      set_unfold; tauto. }
  split; [exact Hall|]. rewrite Hnames, Hall. reflexivity.
Qed.

Lemma best_weather_first_five_witness :
  ∃ res,
    getActivityRecommendations (λ _, "24.5") id (stub (reading 1 24.5 0 3) no_days) "Paris" None
      = Fulfilled res ∧
    Recommendation.activity <$> res.(ActivityRecommendations.recommendations) =
      ["Hiking"; "Beach"; "Cycling"; "Picnic"; "Museum"].
Proof.
  destruct (best_weather_first_five (λ _, "24.5") id
              (stub (reading 1 24.5 0 3) no_days) "Paris" None (observed 1 24.5 0 3) eq_refl)
    as (res & Hres & _ & Hnames).
  - cbn. apply list_elem_of_further, list_elem_of_here.
  - reflexivity.
  - reflexivity.
  - exists res. exact (conj Hres Hnames).
Defined.

(** ** Reasons and indoor alternatives *)

(** X8. Every recommendation returned carries the reason text and the
    indoor alternative of its own activity: the three come as one of the
    seven rows below, the temperature and the lower-cased conditions of the
    reading filled in.  So the reason is never empty and never the fallback
    text "Suitable activity for current conditions", and there is an indoor
    alternative exactly when the activity is one of Hiking, Beach, Cycling
    and Picnic: Museum, Shopping and Restaurant come with none. *)
Theorem recommendation_texts
  (Number_toString : JS.number → string) (toLowerCase : string → string)
  (P : Provider) (location : string) (interests : option (list string))
  (weather : Weather.t) :
  getCurrentWeather P location = Fulfilled weather →
  ∃ res,
    getActivityRecommendations Number_toString toLowerCase P location interests
      = Fulfilled res ∧
    ∀ r, r ∈ res.(ActivityRecommendations.recommendations) →
      r.(Recommendation.reason) =
        getActivityReason Number_toString toLowerCase r.(Recommendation.activity) weather
      ∧ r.(Recommendation.indoorAlternative) = getIndoorAlternative r.(Recommendation.activity)
      ∧ (r.(Recommendation.activity), r.(Recommendation.reason),
         r.(Recommendation.indoorAlternative)) ∈ [
           ("Hiking",
            "Perfect temperature of " +:+ Number_toString weather.(Weather.temperature)
              +:+ "°C and " +:+ toLowerCase weather.(Weather.conditions) +:+ " for hiking",
            Some "Visit a nature museum or indoor botanical garden");
           ("Beach",
            "Warm " +:+ Number_toString weather.(Weather.temperature)
              +:+ "°C and clear skies ideal for beach activities",
            Some "Visit an indoor pool or aquatic center");
           ("Cycling", "Comfortable conditions for cycling with mild temperatures",
            Some "Try a stationary bike at a gym");
           ("Picnic", "Pleasant weather for outdoor dining and relaxation",
            Some "Have an indoor picnic or visit a food hall");
           ("Museum", "Great indoor activity regardless of weather conditions", None);
           ("Shopping", "Comfortable indoor activity suitable for any weather", None);
           ("Restaurant", "Enjoy dining in climate-controlled comfort", None) ]
      ∧ r.(Recommendation.reason) ≠ "Suitable activity for current conditions"
      ∧ r.(Recommendation.reason) ≠ ""
      ∧ (is_Some r.(Recommendation.indoorAlternative) ↔
           r.(Recommendation.activity) ∈ ["Hiking"; "Beach"; "Cycling"; "Picnic"])
      ∧ (r.(Recommendation.indoorAlternative) = None ↔
           r.(Recommendation.activity) ∈ ["Museum"; "Shopping"; "Restaurant"]).
Proof.
  intros Hw.
  destruct (getActivityRecommendations_names Number_toString toLowerCase P location
              interests weather Hw) as (res & Hres & Hnames & Htexts).
  exists res. split; [exact Hres|]. intros r Hr.
  destruct (Htexts r Hr) as [Halternative Hreason].
  split; [exact Hreason|]. split; [exact Halternative|].
  rewrite Halternative, Hreason. clear Halternative Hreason.
  assert (Hname : r.(Recommendation.activity) ∈ Activity.activity <$> allActivities).
  { apply (list_elem_of_fmap_2 Recommendation.activity) in Hr. rewrite Hnames in Hr.
    apply elem_of_take_elem in Hr. apply list_elem_of_fmap in Hr as (act & -> & Hact).
    apply list_elem_of_filter in Hact as [_ Hact]. by apply list_elem_of_fmap_2. }
  cbn in Hname. rewrite !elem_of_cons, elem_of_nil in Hname.
  repeat (destruct Hname as [->|Hname]; [|]); try contradiction.
  all: split; [rewrite !elem_of_cons; auto 10|].
  all: split; [vm_compute; discriminate|].
  all: split; [vm_compute; discriminate|].
  all: rewrite !elem_of_cons, !elem_of_nil.
  all: change (getIndoorAlternative "Hiking") with
         (Some "Visit a nature museum or indoor botanical garden").
  all: change (getIndoorAlternative "Beach") with
         (Some "Visit an indoor pool or aquatic center").
  all: change (getIndoorAlternative "Cycling") with (Some "Try a stationary bike at a gym").
  all: change (getIndoorAlternative "Picnic") with
         (Some "Have an indoor picnic or visit a food hall").
  all: change (getIndoorAlternative "Museum") with (@None string).
  all: change (getIndoorAlternative "Shopping") with (@None string).
  all: change (getIndoorAlternative "Restaurant") with (@None string).
  all: rewrite ?is_Some_alt.
  all: intuition discriminate.
Qed.

(** At 22 degrees under a clear sky Hiking is recommended, with the
    reading's temperature and lower-cased conditions in its reason, and
    Museum comes without an indoor alternative. *)
Lemma recommendation_texts_witness :
  ∃ res,
    getActivityRecommendations (λ _, "22") (λ _, "clear sky")
      (stub (reading 0 22 0 3) no_days) "Paris" None = Fulfilled res ∧
    ∀ r, r ∈ res.(ActivityRecommendations.recommendations) →
      (r.(Recommendation.activity) = "Hiking" →
         r.(Recommendation.reason) = "Perfect temperature of 22°C and clear sky for hiking")
      ∧ (r.(Recommendation.activity) = "Museum" → r.(Recommendation.indoorAlternative) = None).
Proof.
  destruct (recommendation_texts (λ _, "22") (λ _, "clear sky")
              (stub (reading 0 22 0 3) no_days) "Paris" None (observed 0 22 0 3) eq_refl)
    as (res & Hres & Htexts).
  exists res. split; [exact Hres|]. intros r Hr.
  destruct (Htexts r Hr) as (Hreason & _ & _ & _ & _ & _ & Hnone). split.
  - intros Hname. rewrite Hreason, Hname. reflexivity.
  - intros Hname. apply Hnone. rewrite Hname. apply list_elem_of_here.
Defined.

(** ** The clothing recommendation as a function of the reading *)

Lemma getClothingRecommendations_result
  (toLowerCase : string → string)
  (P : Provider) (location : string) (activity : option string) (weather : Weather.t) :
  getCurrentWeather P location = Fulfilled weather →
  ∃ res,
    getClothingRecommendations toLowerCase P location activity = Fulfilled res ∧
    let c := res.(ClothingRecommendations.recommendations) in
    let tier := rung weather.(Weather.temperature) in
    let rain := PrimFloat.ltb 5 weather.(Weather.precipitation) in
    let hiking := from_option (λ a, JS.includes (toLowerCase a) "hiking") false activity in
    c.(Clothing.layers) = (base tier).1.1
    ∧ c.(Clothing.accessories) =
        (base tier).1.2 ++ (if rain then ["Umbrella"; "Waterproof jacket"] else [])
                        ++ (if hiking then ["Backpack"; "Water bottle"] else [])
    ∧ c.(Clothing.footwear) = (if hiking then "Hiking boots" else (base tier).2)
    ∧ c.(Clothing.notes) =
        (if rain then "Expect rain, bring waterproof gear"
         else "Dress comfortably for the conditions").
Proof.
  intros Hw. unfold getClothingRecommendations. rewrite (bind_fulfilled _ _ _ Hw).
  unfold rung, JS.lt, JS.gt. cbv zeta.
  destruct (PrimFloat.ltb weather.(Weather.temperature) 0),
    (PrimFloat.ltb weather.(Weather.temperature) 10),
    (PrimFloat.ltb weather.(Weather.temperature) 20),
    (PrimFloat.ltb 5 weather.(Weather.precipitation)),
    (from_option (λ a, JS.includes (toLowerCase a) "hiking") false activity);
    (eexists; split; [reflexivity|]); by repeat split.
Qed.

Lemma wears_rung (c : Clothing.t) (tier : Tier) (rain hiking : bool) :
  c.(Clothing.layers) = (base tier).1.1 →
  c.(Clothing.accessories) =
    (base tier).1.2 ++ (if rain then ["Umbrella"; "Waterproof jacket"] else [])
                    ++ (if hiking then ["Backpack"; "Water bottle"] else []) →
  c.(Clothing.footwear) = (if hiking then "Hiking boots" else (base tier).2) →
  ∀ tier', wears c tier' ↔ tier' = tier.
Proof.
  intros Hl Ha Hf.
  assert (Hw : wears c tier).
  { split; [exact Hl|]. split; [rewrite Ha; by eexists|].
    rewrite Hf. destruct hiking; auto. }
  intros tier'. split; [intros H'; by eapply wears_unique | by intros ->].
Qed.

Lemma is_nan_true (x : float) : is_nan x = true → Prim2SF x = S754_nan.
Proof.
  intros Hx. destruct (Prim2SF x) eqn:Hsf; try reflexivity;
    exfalso; (assert (is_nan x = false) by (apply is_nan_false; congruence)); congruence.
Qed.

Lemma nan_not_ltb (x y : float) : is_nan x = true → PrimFloat.ltb x y = false.
Proof. intros Hx%is_nan_true. rewrite ltb_spec, Hx. reflexivity. Qed.

(** X9. The ladder cuts the temperatures into four bands.  For a
    temperature that is a number, the base outfit is the one of [< 0] exactly
    when temperature < 0, of [< 10] exactly when 0 <= temperature < 10, of
    [< 20] exactly when 10 <= temperature < 20, and the warm one exactly when
    20 <= temperature.  A temperature that is not a number gets the warm
    outfit. *)
Theorem getClothingRecommendations_bands
  (toLowerCase : string → string)
  (P : Provider) (location : string) (activity : option string) (weather : Weather.t) :
  getCurrentWeather P location = Fulfilled weather →
  ∃ res,
    getClothingRecommendations toLowerCase P location activity = Fulfilled res ∧
    let t := weather.(Weather.temperature) in
    let c := res.(ClothingRecommendations.recommendations) in
    (is_nan t = false →
       (wears c below_0 ↔ PrimFloat.ltb t 0 = true)
       ∧ (wears c below_10 ↔ PrimFloat.leb 0 t = true ∧ PrimFloat.ltb t 10 = true)
       ∧ (wears c below_20 ↔ PrimFloat.leb 10 t = true ∧ PrimFloat.ltb t 20 = true)
       ∧ (wears c warm ↔ PrimFloat.leb 20 t = true))
    ∧ (is_nan t = true → wears c warm).
Proof.
  intros Hw.
  destruct (getClothingRecommendations_result toLowerCase P location activity weather Hw)
    as (res & Hres & Hl & Ha & Hf & _).
  exists res. split; [exact Hres|]. cbv zeta.
  pose proof (wears_rung _ _ _ _ Hl Ha Hf) as Hwears.
  set (t := weather.(Weather.temperature)) in *.
  split.
  - intros Hnan. rewrite !Hwears. unfold rung, JS.lt.
    assert (N0 : is_nan 0 = false) by reflexivity.
    assert (N10 : is_nan 10 = false) by reflexivity.
    assert (N20 : is_nan 20 = false) by reflexivity.
    assert (L1 : PrimFloat.leb 0 10 = true) by reflexivity.
    assert (L2 : PrimFloat.leb 10 20 = true) by reflexivity.
    pose proof (not_ltb_leb 0 t N0 Hnan) as G0.
    pose proof (not_ltb_leb 10 t N10 Hnan) as G10.
    pose proof (not_ltb_leb 20 t N20 Hnan) as G20.
    pose proof (leb_not_ltb 0 t) as F0.
    pose proof (leb_not_ltb 10 t) as F10.
    pose proof (leb_not_ltb 20 t) as F20.
    pose proof (λ H, ltb_leb_trans t 0 10 H L1) as T1.
    pose proof (λ H, ltb_leb_trans t 10 20 H L2) as T2.
    destruct (PrimFloat.ltb t 0) eqn:H0, (PrimFloat.ltb t 10) eqn:H10,
      (PrimFloat.ltb t 20) eqn:H20;
      repeat split; intros; try done; try congruence;
      repeat match goal with
      | H : _ ∧ _ |- _ => destruct H
      end;
      try (specialize (T1 eq_refl)); try (specialize (T2 eq_refl));
      try (specialize (G0 eq_refl)); try (specialize (G10 eq_refl));
      try (specialize (G20 eq_refl));
      first [ done | congruence
            | by (specialize (F0 ltac:(assumption)); congruence)
            | by (specialize (F10 ltac:(assumption)); congruence)
            | by (specialize (F20 ltac:(assumption)); congruence) ].
  - intros Hnan. apply Hwears. unfold rung, JS.lt.
    by rewrite !(nan_not_ltb t _ Hnan).
Qed.

Lemma getClothingRecommendations_bands_witness :
  ∃ res,
    getClothingRecommendations id (stub (reading 0 9.5 0 3) no_days) "Paris" None
      = Fulfilled res ∧
    wears res.(ClothingRecommendations.recommendations) below_10.
Proof.
  destruct (getClothingRecommendations_bands id (stub (reading 0 9.5 0 3) no_days) "Paris" None
              (observed 0 9.5 0 3) eq_refl) as (res & Hres & Hbands & _).
  exists res. split; [exact Hres|].
  destruct (Hbands eq_refl) as (_ & Hcool & _). apply Hcool. split; reflexivity.
Defined.

(** X10. Rain gear.  The notes are "Expect rain, bring waterproof gear" and
    the accessories contain "Umbrella" and "Waterproof jacket" exactly when
    precipitation > 5; otherwise the notes are "Dress comfortably for the
    conditions".  The layers are those of the base outfit either way: the
    waterproof jacket is added as an accessory. *)
Theorem getClothingRecommendations_rain
  (toLowerCase : string → string)
  (P : Provider) (location : string) (activity : option string) (weather : Weather.t) :
  getCurrentWeather P location = Fulfilled weather →
  ∃ res,
    getClothingRecommendations toLowerCase P location activity = Fulfilled res ∧
    let c := res.(ClothingRecommendations.recommendations) in
    let rain := PrimFloat.ltb 5 weather.(Weather.precipitation) in
    ("Umbrella" ∈ c.(Clothing.accessories) ↔ rain = true)
    ∧ ("Waterproof jacket" ∈ c.(Clothing.accessories) ↔ rain = true)
    ∧ (c.(Clothing.notes) = "Expect rain, bring waterproof gear" ↔ rain = true)
    ∧ (c.(Clothing.notes) = "Dress comfortably for the conditions" ↔ rain = false)
    ∧ c.(Clothing.layers) = (base (rung weather.(Weather.temperature))).1.1.
Proof.
  intros Hw.
  destruct (getClothingRecommendations_result toLowerCase P location activity weather Hw)
    as (res & Hres & Hl & Ha & _ & Hn).
  exists res. split; [exact Hres|]. cbv zeta. rewrite Ha, Hn, Hl.
  destruct (rung _), (PrimFloat.ltb 5 _),
    (from_option (λ a, JS.includes (toLowerCase a) "hiking") false activity);
    cbn; set_unfold; intuition congruence.
Qed.

Lemma getClothingRecommendations_rain_witness :
  ∃ res,
    getClothingRecommendations id (stub (reading 61 12 5.5 3) no_days) "Paris" None
      = Fulfilled res ∧
    "Umbrella" ∈ res.(ClothingRecommendations.recommendations).(Clothing.accessories).
Proof.
  destruct (getClothingRecommendations_rain id (stub (reading 61 12 5.5 3) no_days) "Paris" None
              (observed 61 12 5.5 3) eq_refl) as (res & Hres & Humbrella & _).
  exists res. split; [exact Hres|]. apply Humbrella. reflexivity.
Defined.

(** ** Substrings *)

Lemma append_cons (b : Ascii.ascii) (s t : string) : String b s +:+ t = String b (s +:+ t).
Proof. reflexivity. Qed.

Lemma prefix_spec (sub s : string) :
  String.prefix sub s = true ↔ ∃ post, s = sub +:+ post.
Proof.
  revert s. induction sub as [|a sub IH]; intros s; cbn.
  - split; [intros _; by exists s | by destruct s].
  - destruct s as [|b s]; cbn; [split; [done | intros [post Hpost]; discriminate Hpost]|].
    destruct (Ascii.ascii_dec a b) as [->|Hne].
    + rewrite IH. split; intros [post Hpost]; exists post;
        rewrite append_cons in *; congruence.
    + split; [done | intros [post Hpost]; rewrite append_cons in Hpost; congruence].
Qed.

Lemma includes_spec (s sub : string) :
  JS.includes s sub = true ↔ ∃ pre post, s = pre +:+ sub +:+ post.
Proof.
  induction s as [|b s IH]; cbn [JS.includes].
  - rewrite orb_false_r, prefix_spec. split.
    + intros [post ->]. by exists "", post.
    + intros (pre & post & Hs). destruct pre as [|? ?]; [by exists post | discriminate Hs].
  - rewrite orb_true_iff, prefix_spec, IH. split.
    + intros [[post ->] | (pre & post & ->)]; [by exists "", post|].
      by exists (String b pre), post.
    + intros (pre & post & Hs). destruct pre as [|c pre]; [left; by exists post|].
      right. rewrite append_cons in Hs. injection Hs as -> ->. by exists pre, post.
Qed.

(** X11. Hiking gear.  The footwear is "Hiking boots" and the accessories
    end with "Backpack" and "Water bottle" exactly when an activity is given
    whose lower-case text contains "hiking"; otherwise the footwear is the
    base outfit's.  The accessories are always the base outfit's, then the
    rain gear, then the hiking gear. *)
Theorem getClothingRecommendations_hiking
  (toLowerCase : string → string)
  (P : Provider) (location : string) (activity : option string) (weather : Weather.t) :
  getCurrentWeather P location = Fulfilled weather →
  ∃ res,
    getClothingRecommendations toLowerCase P location activity = Fulfilled res ∧
    let c := res.(ClothingRecommendations.recommendations) in
    let tier := rung weather.(Weather.temperature) in
    let hiking :=
      ∃ a pre post, activity = Some a ∧ toLowerCase a = pre +:+ "hiking" +:+ post in
    (c.(Clothing.footwear) = "Hiking boots" ↔ hiking)
    ∧ ("Backpack" ∈ c.(Clothing.accessories) ↔ hiking)
    ∧ (¬ hiking → c.(Clothing.footwear) = (base tier).2)
    ∧ ∃ rain_gear hiking_gear,
        c.(Clothing.accessories) = (base tier).1.2 ++ rain_gear ++ hiking_gear
        ∧ (rain_gear = [] ∨ rain_gear = ["Umbrella"; "Waterproof jacket"])
        ∧ (hiking → hiking_gear = ["Backpack"; "Water bottle"])
        ∧ (¬ hiking → hiking_gear = []).
Proof.
  intros Hw.
  destruct (getClothingRecommendations_result toLowerCase P location activity weather Hw)
    as (res & Hres & _ & Ha & Hf & _).
  exists res. split; [exact Hres|]. cbv zeta. rewrite Ha, Hf.
  assert (Hhiking :
    from_option (λ a, JS.includes (toLowerCase a) "hiking") false activity = true ↔
    ∃ a pre post, activity = Some a ∧ toLowerCase a = pre +:+ "hiking" +:+ post).
  { destruct activity as [a|]; cbn.
    - rewrite includes_spec. split.
      + intros (pre & post & H). by exists a, pre, post.
      + intros (a' & pre & post & [= <-] & H). by exists pre, post.
    - split; [done | intros (a & _ & _ & [=] & _)]. }
  destruct (from_option _ false activity).
  - assert (Hyes : ∃ a pre post, activity = Some a
                     ∧ toLowerCase a = pre +:+ "hiking" +:+ post) by (by apply Hhiking).
    split; [done|]. split.
    { split; [done|]. intros _. rewrite !elem_of_app. right. right. set_unfold. tauto. }
    split; [done|]. do 2 eexists. split; [reflexivity|].
    split; [destruct (PrimFloat.ltb 5 _); auto|]. split; [done|]. done.
  - assert (Hno : ¬ ∃ a pre post, activity = Some a
                     ∧ toLowerCase a = pre +:+ "hiking" +:+ post)
      by (intros Hyes%Hhiking; discriminate Hyes).
    split; [split; [destruct (rung _); discriminate | done]|].
    split.
    { split; [|done]. rewrite !elem_of_app.
      destruct (rung _), (PrimFloat.ltb 5 _); cbn; set_unfold; intuition congruence. }
    split; [done|]. do 2 eexists. split; [reflexivity|].
    split; [destruct (PrimFloat.ltb 5 _); auto|]. split; [done|]. done.
Qed.

(** The activity "Mountain HIKING trip", lower-cased to
    "mountain hiking trip", on a warm dry day. *)
Lemma getClothingRecommendations_hiking_witness :
  ∃ res,
    getClothingRecommendations (λ _, "mountain hiking trip")
      (stub (reading 0 22 0 3) no_days) "Paris" (Some "Mountain HIKING trip")
      = Fulfilled res ∧
    res.(ClothingRecommendations.recommendations).(Clothing.footwear) = "Hiking boots".
Proof.
  destruct (getClothingRecommendations_hiking (λ _, "mountain hiking trip")
              (stub (reading 0 22 0 3) no_days) "Paris" (Some "Mountain HIKING trip")
              (observed 0 22 0 3) eq_refl) as (res & Hres & Hboots & _).
  exists res. split; [exact Hres|]. apply Hboots.
  by exists "Mountain HIKING trip", "mountain ", " trip".
Defined.

(** ** Forecast: arrays of unequal length *)

(** X12. The parallel arrays are not checked against [time].  The entry at
    index [i] has an undefined high exactly when the maximum-temperature
    array has no index [i], and likewise for the low, the precipitation
    chance, the wind speed and the UV index; a missing weather code gives the
    conditions "Unknown".  When every array is at least as long as [time], no
    field of any entry is undefined.  Elements of the arrays past the length
    of [time] are dropped. *)
Theorem getWeatherForecast_ragged
  (P : Provider) (location : string) (days : option Z)
  (geo : GeocodingResult.t) (data : ForecastResponse.t) :
  geocodeLocation P location = Fulfilled geo →
  P.(daily_forecast) geo.(GeocodingResult.latitude) geo.(GeocodingResult.longitude)
    (default 3%Z days) = Fulfilled data →
  ∃ res,
    getWeatherForecast P location days = Fulfilled res ∧
    let daily := data.(ForecastResponse.daily) in
    let forecast := res.(Forecast.forecast) in
    (∀ i day, forecast !! i = Some day →
       (day.(ForecastDay.high) = None ↔ length daily.(Daily.temperature_2m_max) ≤ i)
       ∧ (day.(ForecastDay.low) = None ↔ length daily.(Daily.temperature_2m_min) ≤ i)
       ∧ (day.(ForecastDay.precipitationChance) = None ↔
            length daily.(Daily.precipitation_probability_max) ≤ i)
       ∧ (day.(ForecastDay.windSpeed) = None ↔ length daily.(Daily.wind_speed_10m_max) ≤ i)
       ∧ (day.(ForecastDay.uvIndex) = None ↔ length daily.(Daily.uv_index_max) ≤ i)
       ∧ (length daily.(Daily.weather_code) ≤ i → day.(ForecastDay.conditions) = "Unknown"))
    ∧ (length daily.(Daily.time) ≤ length daily.(Daily.temperature_2m_max) →
       length daily.(Daily.time) ≤ length daily.(Daily.temperature_2m_min) →
       length daily.(Daily.time) ≤ length daily.(Daily.precipitation_probability_max) →
       length daily.(Daily.time) ≤ length daily.(Daily.wind_speed_10m_max) →
       length daily.(Daily.time) ≤ length daily.(Daily.uv_index_max) →
       ∀ day, day ∈ forecast →
         is_Some day.(ForecastDay.high) ∧ is_Some day.(ForecastDay.low)
         ∧ is_Some day.(ForecastDay.precipitationChance)
         ∧ is_Some day.(ForecastDay.windSpeed) ∧ is_Some day.(ForecastDay.uvIndex))
    ∧ (∀ i, length daily.(Daily.time) ≤ i → forecast !! i = None).
Proof.
  intros Hgeo Hdata. unfold getWeatherForecast. cbv zeta.
  rewrite (bind_fulfilled _ _ _ Hgeo), (bind_fulfilled _ _ _ Hdata).
  eexists; split; [reflexivity|]. cbn [Forecast.forecast].
  split; [|split].
  - intros i day Hday. apply list_lookup_imap_Some in Hday as (date & Hdate & ->).
    cbn. rewrite !lookup_ge_None. repeat split; try done.
    intros Hcode%lookup_ge_None. by rewrite Hcode.
  - intros H1 H2 H3 H4 H5 day Hday.
    apply elem_of_lookup_imap_1 in Hday as (i & date & -> & Hi).
    apply lookup_lt_Some in Hi. cbn.
    repeat split; apply lookup_lt_is_Some; lia.
  - intros i Hi. rewrite list_lookup_imap. by rewrite (lookup_ge_None_2 _ _ Hi).
Qed.

Lemma getWeatherForecast_ragged_witness :
  ∃ res,
    getWeatherForecast (stub (reading 0 22 0 3) two_days) "Paris" None = Fulfilled res ∧
    ∀ day, day ∈ res.(Forecast.forecast) →
      is_Some day.(ForecastDay.high) ∧ is_Some day.(ForecastDay.uvIndex).
Proof.
  destruct (getWeatherForecast_ragged (stub (reading 0 22 0 3) two_days) "Paris" None
              paris {| ForecastResponse.daily := two_days |} eq_refl eq_refl)
    as (res & Hres & _ & Hfull & _).
  exists res. split; [exact Hres|]. intros day Hday.
  destruct (Hfull ltac:(cbn; lia) ltac:(cbn; lia) ltac:(cbn; lia) ltac:(cbn; lia)
              ltac:(cbn; lia) day Hday) as (Hhigh & _ & _ & _ & Huv).
  exact (conj Hhigh Huv).
Defined.

(** ** Alerts *)

(** X13. [hasAlerts] is true exactly when precipitation > 20 or wind
    speed > 30; there are never more than two alerts; readings that are not
    numbers raise none. *)
Theorem getWeatherAlerts_flag (P : Provider) (location : string) (weather : Weather.t) :
  getCurrentWeather P location = Fulfilled weather →
  ∃ res, getWeatherAlerts P location = Fulfilled res ∧
    (res.(WeatherAlerts.hasAlerts) = true ↔
       PrimFloat.ltb 20 weather.(Weather.precipitation) = true ∨
       PrimFloat.ltb 30 weather.(Weather.windSpeed) = true)
    ∧ length res.(WeatherAlerts.alerts) ≤ 2
    ∧ (is_nan weather.(Weather.precipitation) = true →
       is_nan weather.(Weather.windSpeed) = true →
       res.(WeatherAlerts.alerts) = [] ∧ res.(WeatherAlerts.hasAlerts) = false).
Proof.
  intros Hw. unfold getWeatherAlerts. rewrite (bind_fulfilled _ _ _ Hw).
  eexists; split; [reflexivity|]. cbn. unfold JS.gt.
  assert (Hnan : ∀ x y, is_nan y = true → PrimFloat.ltb x y = false).
  { intros x y Hy. destruct (PrimFloat.ltb x y) eqn:Hlt; [|done].
    apply ltb_leb, leb_not_nan in Hlt as [_ Hlt]. congruence. }
  pose proof (Hnan 20%float weather.(Weather.precipitation)) as Hp.
  pose proof (Hnan 30%float weather.(Weather.windSpeed)) as Hv.
  destruct (PrimFloat.ltb 20 weather.(Weather.precipitation)),
           (PrimFloat.ltb 30 weather.(Weather.windSpeed)); cbn;
    (split; [rewrite bool_decide_eq_true; cbn; split; intros; (lia || intuition congruence)|]);
    (split; [lia|]); intros H1 H2; specialize (Hp H1); specialize (Hv H2);
    (congruence || done).
Qed.

Lemma getWeatherAlerts_flag_witness :
  ∃ res, getWeatherAlerts (stub (reading 0 12 0 45) no_days) "Paris" = Fulfilled res ∧
    res.(WeatherAlerts.hasAlerts) = true.
Proof.
  destruct (getWeatherAlerts_flag (stub (reading 0 12 0 45) no_days) "Paris"
              (observed 0 12 0 45) eq_refl) as (res & Hres & Hflag & _).
  exists res. split; [exact Hres|]. apply Hflag. right. reflexivity.
Defined.

(** ** The translation and relevance scorers *)

Lemma finite_mul_range (b c : float) :
  (∃ s m e, Prim2SF b = S754_finite s m e) → is_nan c = false →
  PrimFloat.leb 0 (JS.Math_max 0 (JS.Math_min 1 (b * c))) = true ∧
  PrimFloat.leb (JS.Math_max 0 (JS.Math_min 1 (b * c))) 1 = true.
Proof. intros Hb Hc. by apply clamp_range, mul_not_nan. Qed.

(** X14. The translation score.  When the detected language is "english"
    the score is 1, whatever the rest of the analysis, the confidence
    included.  Otherwise the score is base x confidence (1 when absent)
    clamped to [0, 1], where the base is 0.3 whenever the tools did not use
    English, whatever the consistency, and with English tool calls 1.0 for
    "consistent", 0.8 for "mostly_consistent", 0.3 for "inconsistent" and
    0.5 for anything else.  With a confidence that is a number the score is
    within [0, 1]; without an analysis it is 0.3. *)
Theorem translationScorer_score (r : TranslationAnalysis.t) :
  let score := translationScorer.generateScore
                 (Some {| TranslationResults.analyzeStepResult := Some r |}) in
  let consistency := r.(TranslationAnalysis.translationConsistency) in
  let confidence := JS.nullish r.(TranslationAnalysis.confidence) 1 in
  let clamp (z : JS.number) := JS.Math_max 0 (JS.Math_min 1 z) in
  (r.(TranslationAnalysis.detectedLanguage) = Some "english" → score = 1%float)
  ∧ (r.(TranslationAnalysis.detectedLanguage) ≠ Some "english" →
       (r.(TranslationAnalysis.toolsUsedEnglish) ≠ Some true →
          score = clamp (0.3 * confidence)%float)
       ∧ (r.(TranslationAnalysis.toolsUsedEnglish) = Some true →
            (consistency = Some "consistent" → score = clamp (1.0 * confidence)%float)
            ∧ (consistency = Some "mostly_consistent" →
                 score = clamp (0.8 * confidence)%float)
            ∧ (consistency = Some "inconsistent" → score = clamp (0.3 * confidence)%float)
            ∧ (consistency ≠ Some "consistent" → consistency ≠ Some "mostly_consistent" →
               consistency ≠ Some "inconsistent" → score = clamp (0.5 * confidence)%float)))
  ∧ (is_nan confidence = false →
       PrimFloat.leb 0 score = true ∧ PrimFloat.leb score 1 = true)
  ∧ translationScorer.generateScore None = 0.3%float
  ∧ translationScorer.generateScore
      (Some {| TranslationResults.analyzeStepResult := None |}) = 0.3%float.
Proof.
  destruct r as [language consistency tools confidence]. cbv zeta.
  cbn [TranslationAnalysis.detectedLanguage TranslationAnalysis.translationConsistency
       TranslationAnalysis.toolsUsedEnglish TranslationAnalysis.confidence].
  unfold translationScorer.generateScore.
  cbn [mbind option_bind default from_option id TranslationResults.analyzeStepResult
       TranslationAnalysis.detectedLanguage TranslationAnalysis.translationConsistency
       TranslationAnalysis.toolsUsedEnglish TranslationAnalysis.confidence
       TranslationAnalysis.empty].
  cbv zeta.
  split; [|split; [|split; [|by split]]].
  - intros ->. by rewrite bool_decide_eq_true_2.
  - intros Hlang. rewrite (bool_decide_eq_false_2 _ Hlang). split.
    + intros Htools.
      assert (Hfalse : from_option id false tools = false) by (by destruct tools as [[]|]).
      rewrite Hfalse, !andb_false_r, orb_true_r. reflexivity.
    + intros ->. cbn [from_option id]. rewrite !andb_true_r, orb_false_r.
      repeat split.
      * intros ->. reflexivity.
      * intros ->. reflexivity.
      * intros ->. reflexivity.
      * intros H1 H2 H3. by rewrite !bool_decide_eq_false_2.
  - intros Hc. case_bool_decide; [done|].
    repeat match goal with |- context [if ?b then _ else _] => destruct b end;
      apply finite_mul_range; try exact Hc; vm_compute; eauto.
Qed.

(** English text scores 1 even with confidence 0. *)
Lemma translationScorer_score_witness :
  translationScorer.generateScore (Some {| TranslationResults.analyzeStepResult := Some {|
    TranslationAnalysis.detectedLanguage := Some "english";
    TranslationAnalysis.translationConsistency := Some "inconsistent";
    TranslationAnalysis.toolsUsedEnglish := Some false;
    TranslationAnalysis.confidence := Some 0%float |} |}) = 1%float.
Proof.
  exact (proj1 (translationScorer_score {|
    TranslationAnalysis.detectedLanguage := Some "english";
    TranslationAnalysis.translationConsistency := Some "inconsistent";
    TranslationAnalysis.toolsUsedEnglish := Some false;
    TranslationAnalysis.confidence := Some 0%float |}) eq_refl).
Defined.



(** ** The translation scorer's preprocess step *)

Lemma or_string_nonempty (v : option string) (d : string) :
  d ≠ "" → JS.or_string v d ≠ "".
Proof.
  intros Hd. unfold JS.or_string, JS.truthy_string.
  destruct v as [s|]; [|done]. case_bool_decide; cbn; done.
Qed.

(** X16. The preprocess step reads the first output message only: there is
    one tool location per tool call of that message, in the same order and
    with the same tool names, and none when there is no output message or it
    has no tool calls.  A location is never empty: it is the call's
    [location] input when that is a non-empty text, else its [city] input
    when that is a non-empty text, else "unknown".  Later messages do not
    matter. *)
Theorem translationScorer_preprocess_locations (run : Run.t) :
  let p := translationScorer_preprocess run in
  let calls := default [] ((run.(Run.output) ≫= (.!! 0)) ≫= Message.toolCalls) in
  ToolLocation.tool <$> p.(TranslationPreprocess.toolLocations) = ToolCall.toolName <$> calls
  ∧ (∀ i tc, calls !! i = Some tc →
       ∃ tl, p.(TranslationPreprocess.toolLocations) !! i = Some tl ∧
         let location := tc.(ToolCall.input) ≫= ToolInput.location in
         let city := tc.(ToolCall.input) ≫= ToolInput.city in
         tl.(ToolLocation.location) ≠ ""
         ∧ (∀ s, location = Some s → s ≠ "" → tl.(ToolLocation.location) = s)
         ∧ (location = None ∨ location = Some "" →
              (∀ s, city = Some s → s ≠ "" → tl.(ToolLocation.location) = s)
              ∧ (city = None ∨ city = Some "" → tl.(ToolLocation.location) = "unknown")))
  ∧ (∀ tl, tl ∈ p.(TranslationPreprocess.toolLocations) → tl.(ToolLocation.location) ≠ "")
  ∧ (∀ run', run'.(Run.input) = run.(Run.input) →
       run'.(Run.output) ≫= (.!! 0) = run.(Run.output) ≫= (.!! 0) →
       translationScorer_preprocess run' = p).
Proof.
  intros p calls. unfold p, translationScorer_preprocess. cbv zeta.
  cbn [TranslationPreprocess.toolLocations].
  change (default [] ((run.(Run.output) ≫= (λ messages : list Message.t, messages !! 0)) ≫= Message.toolCalls)) with calls.
  split; [|split; [|split]].
  - rewrite <- list_fmap_compose. reflexivity.
  - intros i tc Htc. eexists. split; [by rewrite list_lookup_fmap, Htc|].
    cbn [ToolLocation.location]. cbv zeta.
    split; [by apply or_string_nonempty, or_string_nonempty|].
    split.
    + intros s -> Hs. unfold JS.or_string at 1, JS.truthy_string.
      by rewrite bool_decide_eq_false_2.
    + intros Hloc.
      assert (Hfall : ∀ d, JS.or_string (tc.(ToolCall.input) ≫= ToolInput.location) d = d)
        by (intros d; by destruct Hloc as [-> | ->]).
      rewrite Hfall. split.
      * intros s -> Hs. unfold JS.or_string, JS.truthy_string.
        by rewrite bool_decide_eq_false_2.
      * by intros [-> | ->].
  - intros tl (tc & -> & _)%list_elem_of_fmap.
    by apply or_string_nonempty, or_string_nonempty.
  - intros run' Hin Hout. unfold calls.
    assert (Hfirst : run'.(Run.output) ≫= (λ messages : list Message.t, messages !! 0)
                     = run.(Run.output) ≫= (λ messages : list Message.t, messages !! 0))
      by exact Hout.
    by rewrite Hin, Hfirst.
Qed.

Lemma translationScorer_preprocess_locations_witness :
  let call := {| ToolCall.toolName := Some "weatherTool";
                 ToolCall.input := Some {| ToolInput.location := Some "";
                                           ToolInput.city := Some "Lyon" |} |} in
  let run := {| Run.input := None;
                Run.output := Some [{| Message.content := Some "Sunny in Lyon";
                                       Message.toolCalls := Some [call] |}] |} in
  ∃ tl, (translationScorer_preprocess run).(TranslationPreprocess.toolLocations) !! 0 = Some tl
        ∧ tl.(ToolLocation.location) = "Lyon".
Proof.
  intros call run.
  destruct (translationScorer_preprocess_locations run) as (_ & Hcalls & _).
  destruct (Hcalls 0 call eq_refl) as (tl & Htl & _ & _ & Hcity).
  exists tl. split; [exact Htl|].
  apply (proj1 (Hcity (or_intror eq_refl)) "Lyon" eq_refl). discriminate.
Defined.
